(** * modelo_dbo_app: two-reservoir DBO model and its fixed-step RK4 driver

    Shallow embedding of [src/modelo_dbo_app.py].  The script is numeric
    Python: module-level assignments, one function ([derivadas]) and one
    counted loop.  It is embedded over an arithmetic interface [Arith]
    so that the same definitions run

    - in exact rational arithmetic ([Q]), where the algebraic properties
      of the scheme are stated and proved, and
    - in IEEE-754 binary64 ([PrimFloat.float], the arithmetic CPython
      executes), where the concrete scenario is evaluated.

    Python's [/] raises [ZeroDivisionError] on a zero divisor and [int()]
    raises on infinities and NaN, so the embedding lives in a small
    exception monad. *)

From Stdlib Require Import ZArith QArith Qround Qfield Lqa Lia List Bool.
From Stdlib Require Import Floats.PrimFloat Floats.FloatOps Floats.SpecFloat.
Import ListNotations.

(** ** Exceptions *)

Inductive exn : Set :=
| ZeroDivisionError
| OverflowError
| ValueError.

Inductive result (A : Type) : Type :=
| Ok (a : A)
| Raise (e : exn).

Arguments Ok {A} a.
Arguments Raise {A} e.

Definition bind {A B : Type} (m : result A) (f : A -> result B) : result B :=
  match m with
  | Ok a => f a
  | Raise e => Raise e
  end.

Declare Scope py_scope.
Delimit Scope py_scope with py.

Notation "x <- m ;; k" := (bind m (fun x => k))
  (at level 61, m at next level, right associativity) : py_scope.
Notation "' ( x , y ) <- m ;; k" := (bind m (fun '(x, y) => k))
  (at level 61, x name, y name, m at next level, right associativity) : py_scope.

(** ** The arithmetic interface

    [of_int] embeds a Python [int]; every integer the script mixes with
    floats is small, so the embedding is exact in both instances.
    [div] is the raw quotient; the script reaches it through [pydiv],
    which raises on a zero divisor, or with a nonzero literal divisor.
    [to_int] is Python's [int(x)]: truncation toward zero. *)

Class Arith : Type := {
  num : Type;
  of_int : Z -> num;
  add : num -> num -> num;
  sub : num -> num -> num;
  mul : num -> num -> num;
  div : num -> num -> num;
  ltb : num -> num -> bool;
  is_zero : num -> bool;
  to_int : num -> result Z
}.

Infix "+" := add : py_scope.
Infix "-" := sub : py_scope.
Infix "*" := mul : py_scope.
Infix "/" := div : py_scope.
Infix "<?" := ltb : py_scope.

(** *** Exact rational arithmetic *)

Definition Qltb (x y : Q) : bool := negb (Qle_bool y x).

Definition Qtrunc (x : Q) : Z := Z.quot (Qnum x) (Zpos (Qden x)).

Definition ArithQ : Arith := {|
  num := Q;
  of_int := inject_Z;
  add := Qplus;
  sub := Qminus;
  mul := Qmult;
  div := Qdiv;
  ltb := Qltb;
  is_zero := fun x => Qeq_bool x 0;
  to_int := fun x => Ok (Qtrunc x)
|}.

(** *** IEEE-754 binary64 *)

Definition float_of_int (z : Z) : float :=
  SF2Prim (binary_normalize prec emax z 0 false).

Definition float_to_int (x : float) : result Z :=
  match Prim2SF x with
  | S754_zero _ => Ok 0%Z
  | S754_infinity _ => Raise OverflowError
  | S754_nan => Raise ValueError
  | S754_finite s m e =>
      let a := match e with
               | Zneg k => Z.shiftr (Zpos m) (Zpos k)
               | _ => Z.shiftl (Zpos m) e
               end in
      Ok (if s then Z.opp a else a)
  end.

Definition ArithFloat : Arith := {|
  num := float;
  of_int := float_of_int;
  add := PrimFloat.add;
  sub := PrimFloat.sub;
  mul := PrimFloat.mul;
  div := PrimFloat.div;
  ltb := PrimFloat.ltb;
  is_zero := fun x => PrimFloat.eqb x PrimFloat.zero;
  to_int := float_to_int
|}.

(** ** The script *)

Section Script.

Context {R : Arith}.
Local Open Scope py_scope.

(** Python's true division [x / y]. *)
Definition pydiv (x y : num) : result num :=
  if is_zero y then Raise ZeroDivisionError else Ok (x / y).

(** A decimal float literal [m/d] such as [0.1]; in binary64 the
    correctly rounded quotient of two exactly represented integers is
    the double nearest to the decimal, which is what the literal denotes. *)
Definition lit (m d : Z) : num := of_int m / of_int d.

(** The module-level names [derivadas] reads. *)
Record params : Type := {
  L_input : num;
  CB : num;
  t_descarga : num;
  V1 : num;
  V2 : num;
  D1B : num;
  D12 : num;
  k1 : num;
  k2 : num
}.

(** [def derivadas(C1, C2, t)], lines 72-78. *)
Definition derivadas (p : params) (C1 C2 t : num) : result (num * num) :=
  let L := if t <? t_descarga p then L_input p else of_int 0 in
  r1 <- pydiv (of_int 1) (V1 p) ;;
  let dC1_dt := r1 * (D1B p * (CB p - C1) + D12 p * (C2 - C1) + L) - k1 p * C1 in
  r2 <- pydiv (of_int 1) (V2 p) ;;
  let dC2_dt := r2 * (D12 p * (C1 - C2)) - k2 p * C2 in
  Ok (dC1_dt, dC2_dt).

(** The variables the loop mutates: the current state and time and the
    three parallel output lists. *)
Record vars : Type := {
  C1 : num;
  C2 : num;
  t : num;
  t_list : list num;
  C1_list : list num;
  C2_list : list num
}.

(** One iteration of the loop body, lines 91-102. *)
Definition rk4_body (p : params) (dt : num) (s : vars) : result vars :=
  '(k1_1, k2_1) <- derivadas p (C1 s) (C2 s) (t s) ;;
  '(k1_2, k2_2) <- derivadas p (C1 s + dt * k1_1 / of_int 2)
                               (C2 s + dt * k2_1 / of_int 2)
                               (t s + dt / of_int 2) ;;
  '(k1_3, k2_3) <- derivadas p (C1 s + dt * k1_2 / of_int 2)
                               (C2 s + dt * k2_2 / of_int 2)
                               (t s + dt / of_int 2) ;;
  '(k1_4, k2_4) <- derivadas p (C1 s + dt * k1_3) (C2 s + dt * k2_3) (t s + dt) ;;
  let C1' := C1 s + (dt / of_int 6)
                    * (k1_1 + of_int 2 * k1_2 + of_int 2 * k1_3 + k1_4) in
  let C2' := C2 s + (dt / of_int 6)
                    * (k2_1 + of_int 2 * k2_2 + of_int 2 * k2_3 + k2_4) in
  let t' := t s + dt in
  Ok {| C1 := C1'; C2 := C2'; t := t';
        t_list := t_list s ++ [t'];
        C1_list := C1_list s ++ [C1'];
        C2_list := C2_list s ++ [C2'] |}.

(** [for i in range(N)], line 90, by the number of iterations left. *)
Fixpoint rk4_loop (p : params) (dt : num) (n : nat) (s : vars) : result vars :=
  match n with
  | O => Ok s
  | S n' => s' <- rk4_body p dt s ;; rk4_loop p dt n' s'
  end.

(** Lines 84-88: the lists start with the initial sample, [t = 0]. *)
Definition init (C1_0 C2_0 : num) : vars :=
  {| C1 := C1_0; C2 := C2_0; t := of_int 0;
     t_list := [of_int 0]; C1_list := [C1_0]; C2_list := [C2_0] |}.

(** Line 62: [N = int(Tmax / dt)]. *)
Definition steps (Tmax dt : num) : result Z :=
  q <- pydiv Tmax dt ;; to_int q.

(** Lines 84-102 for given module-level values; [range(N)] is empty for
    [N <= 0]. *)
Definition runge_kutta_4 (p : params) (dt : num) (N : Z) (C1_0 C2_0 : num)
  : result vars :=
  rk4_loop p dt (Z.to_nat N) (init C1_0 C2_0).

(** Lines 60-102 with the time grid computed from [Tmax] and [dt]. *)
Definition simulate (p : params) (Tmax dt C1_0 C2_0 : num) : result vars :=
  N <- steps Tmax dt ;; runge_kutta_4 p dt N C1_0 C2_0.

(** Whether a run returned, and the variables it ended with (the initial
    ones if it raised). *)
Definition is_ok {A : Type} (r : result A) : bool :=
  match r with
  | Ok _ => true
  | Raise _ => false
  end.

Definition final (r : result vars) : vars :=
  match r with
  | Ok s => s
  | Raise _ => init (of_int 0) (of_int 0)
  end.

(** The samples [(t, C1, C2)] the three lists hold, index by index. *)
Definition trajectory (s : vars) : list (num * num * num) :=
  combine (combine (t_list s) (C1_list s)) (C2_list s).

End Script.

(** ** The fixed parameters (lines 33-66), as the script assigns them *)

Module Fijos.
Section Fijos.
Context {R : Arith}.
Local Open Scope py_scope.

Definition t_descarga : num := of_int 1.
Definition V1 : num := of_int 100000.
Definition V2 : num := of_int 200000.

Definition A1B : num := of_int 25.
Definition L1B : num := of_int 80.
Definition E1B : num := lit 6 10.
Definition D1B : result num :=
  q <- pydiv (E1B * A1B) L1B ;; Ok (q * of_int 86400).

Definition A12 : num := of_int 18.
Definition L12 : num := of_int 120.
Definition E12 : num := lit 4 10.
Definition D12 : result num :=
  q <- pydiv (E12 * A12) L12 ;; Ok (q * of_int 86400).

Definition k1 : num := lit 2 10.
Definition k2 : num := lit 1 10.

Definition Tmax : num := of_int 30.
Definition dt : num := lit 1 10.
Definition N : result Z := steps Tmax dt.

Definition C1 : num := of_int 0.
Definition C2 : num := of_int 0.

End Fijos.
End Fijos.

Section Programa.
Context {R : Arith}.
Local Open Scope py_scope.

(** The names [derivadas] reads, once the sliders and the two
    conductances have their values. *)
Definition parametros (L_input CB d1b d12 : num) : params :=
  {| L_input := L_input; CB := CB; t_descarga := Fijos.t_descarga;
     V1 := Fijos.V1; V2 := Fijos.V2; D1B := d1b; D12 := d12;
     k1 := Fijos.k1; k2 := Fijos.k2 |}.

(** The whole script for the two slider values. *)
Definition modelo_dbo_app (L_input CB : num) : result vars :=
  d1b <- Fijos.D1B ;;
  d12 <- Fijos.D12 ;;
  n <- Fijos.N ;;
  runge_kutta_4 (parametros L_input CB d1b d12) Fijos.dt n Fijos.C1 Fijos.C2.

End Programa.

(** ** Pure reading of the script

    The values the script computes when no division raises, as functions
    of the sample [(t, C1, C2)] the loop holds. *)

Section Pure.
Context {R : Arith}.
Local Open Scope py_scope.

Definition sample : Type := (num * num * num)%type.

Definition carga (p : params) (t : num) : num :=
  if t <? t_descarga p then L_input p else of_int 0.

Definition dC1_dt (p : params) (C1 C2 t : num) : num :=
  of_int 1 / V1 p * (D1B p * (CB p - C1) + D12 p * (C2 - C1) + carga p t)
  - k1 p * C1.

Definition dC2_dt (p : params) (C1 C2 : num) : num :=
  of_int 1 / V2 p * (D12 p * (C1 - C2)) - k2 p * C2.

Definition paso (p : params) (dt : num) (x : sample) : sample :=
  let '(t, C1, C2) := x in
  let k1_1 := dC1_dt p C1 C2 t in
  let k2_1 := dC2_dt p C1 C2 in
  let k1_2 := dC1_dt p (C1 + dt * k1_1 / of_int 2) (C2 + dt * k2_1 / of_int 2)
                       (t + dt / of_int 2) in
  let k2_2 := dC2_dt p (C1 + dt * k1_1 / of_int 2) (C2 + dt * k2_1 / of_int 2) in
  let k1_3 := dC1_dt p (C1 + dt * k1_2 / of_int 2) (C2 + dt * k2_2 / of_int 2)
                       (t + dt / of_int 2) in
  let k2_3 := dC2_dt p (C1 + dt * k1_2 / of_int 2) (C2 + dt * k2_2 / of_int 2) in
  let k1_4 := dC1_dt p (C1 + dt * k1_3) (C2 + dt * k2_3) (t + dt) in
  let k2_4 := dC2_dt p (C1 + dt * k1_3) (C2 + dt * k2_3) in
  (t + dt,
   C1 + (dt / of_int 6) * (k1_1 + of_int 2 * k1_2 + of_int 2 * k1_3 + k1_4),
   C2 + (dt / of_int 6) * (k2_1 + of_int 2 * k2_2 + of_int 2 * k2_3 + k2_4)).

(** The [n] samples that follow [x]. *)
Fixpoint orbit (p : params) (dt : num) (n : nat) (x : sample) : list sample :=
  match n with
  | O => []
  | S n' => paso p dt x :: orbit p dt n' (paso p dt x)
  end.

Definition actual (s : vars) : sample := (t s, C1 s, C2 s).

(** The same module-level values with other slider positions. *)
Definition con_entradas (p : params) (L' CB' : num) : params :=
  {| L_input := L'; CB := CB'; t_descarga := t_descarga p;
     V1 := V1 p; V2 := V2 p; D1B := D1B p; D12 := D12 p;
     k1 := k1 p; k2 := k2 p |}.

(** The same values with the source switched off. *)
Definition sin_carga (p : params) : params := con_entradas p (of_int 0) (CB p).

Definition volumes_ok (p : params) : Prop :=
  is_zero (V1 p) = false /\ is_zero (V2 p) = false.

Definition tiempo (x : sample) : num := fst (fst x).
Definition conc1 (x : sample) : num := snd (fst x).
Definition conc2 (x : sample) : num := snd x.

(** The lists end with the current values of the loop variables. *)
Definition ends_with_current (s : vars) : Prop :=
  forall d : num,
    last (t_list s) d = t s /\ last (C1_list s) d = C1 s /\ last (C2_list s) d = C2 s.

End Pure.

(** ** The specification's reading of the model (sections 4.1 and 4.2) *)

Module Spec.
Section Spec.
Context {R : Arith}.
Local Open Scope py_scope.

(** L(t) = L_input if t < t_descarga, else 0. *)
Definition L (p : params) (t : num) : num :=
  if t <? t_descarga p then L_input p else of_int 0.

(** dC1/dt = (1/V1) [ D1B (CB - C1) + D12 (C2 - C1) + L(t) ] - k1 C1,
    dC2/dt = (1/V2) [ D12 (C1 - C2) ] - k2 C2. *)
Definition Model (p : params) (C1 C2 t : num) : num * num :=
  (of_int 1 / V1 p * (D1B p * (CB p - C1) + D12 p * (C2 - C1) + L p t) - k1 p * C1,
   of_int 1 / V2 p * (D12 p * (C1 - C2)) - k2 p * C2).

(** Steps 1 to 6 of the integrator, for step size [h]. *)
Definition RK4 (p : params) (h : num) (x : sample) : sample :=
  let '(t, C1, C2) := x in
  let k_a := Model p C1 C2 t in
  let k_b := Model p (C1 + h / of_int 2 * fst k_a) (C2 + h / of_int 2 * snd k_a)
                     (t + h / of_int 2) in
  let k_c := Model p (C1 + h / of_int 2 * fst k_b) (C2 + h / of_int 2 * snd k_b)
                     (t + h / of_int 2) in
  let k_d := Model p (C1 + h * fst k_c) (C2 + h * snd k_c) (t + h) in
  (t + h,
   C1 + h / of_int 6 * (fst k_a + of_int 2 * fst k_b + of_int 2 * fst k_c + fst k_d),
   C2 + h / of_int 6 * (snd k_a + of_int 2 * snd k_b + of_int 2 * snd k_c + snd k_d)).

End Spec.
End Spec.

(** ** Predicates and instances of the exact-arithmetic statements *)

Section ExactDefs.
#[local] Existing Instance ArithQ.
Local Open Scope Q_scope.

(** Equality of samples up to the representation of rationals. *)
Definition sample_eq (x y : @sample ArithQ) : Prop :=
  tiempo x == tiempo y /\ conc1 x == conc1 y /\ conc2 x == conc2 y.

(** The pollutant mass held by the two reservoirs. *)
Definition masa (p : @params ArithQ) (x : @sample ArithQ) : Q :=
  V1 p * conc1 x + V2 p * conc2 x.

Definition closed_system (p : @params ArithQ) : Prop :=
  k1 p == 0 /\ k2 p == 0 /\ D1B p == 0 /\ L_input p == 0.

(** Both concentrations vanish. *)
Definition at_origin (x : @sample ArithQ) : Prop := conc1 x == 0 /\ conc2 x == 0.

(** The shape of a run of [N] steps from the sample [(0, c1, c2)]. *)
Definition on_grid (dt c1 c2 : Q) (N : nat) (s : @vars ArithQ) : Prop :=
  length (trajectory s) = S N
  /\ hd_error (trajectory s) = Some (0, c1, c2)
  /\ (forall (i : nat) (d : sample),
        (i <= N)%nat ->
        tiempo (nth i (trajectory s) d) == inject_Z (Z.of_nat i) * dt)
  /\ (forall (i : nat) (d : sample),
        (i < N)%nat ->
        tiempo (nth (S i) (trajectory s) d) - tiempo (nth i (trajectory s) d) == dt
        /\ tiempo (nth i (trajectory s) d) < tiempo (nth (S i) (trajectory s) d)).

(** The script's parameters at the default slider positions. *)
Definition ejemplo : @params ArithQ := parametros 1000000 1 16200 5184.

(** No decay, no boundary exchange, no source: only the internal exchange. *)
Definition aislado : @params ArithQ :=
  {| L_input := 0; CB := 1; t_descarga := 1; V1 := 100000; V2 := 200000;
     D1B := 0; D12 := 5184; k1 := 0; k2 := 0 |}.

(** Both sliders at zero. *)
Definition en_reposo : @params ArithQ := parametros 0 0 16200 5184.

(** A state at which [derivadas] returns zero rates at every time. *)
Definition stationary (p : @params ArithQ) (c1 c2 : Q) : Prop :=
  forall tm : Q, exists d1 d2 : Q,
    derivadas p c1 c2 tm = Ok (d1, d2) /\ d1 == 0 /\ d2 == 0.

(** No decay, no exchange at all, no source. *)
Definition isolated (p : @params ArithQ) : Prop :=
  k1 p == 0 /\ k2 p == 0 /\ D1B p == 0 /\ D12 p == 0 /\ L_input p == 0.

(** The concentrations of a sample are [c1] and [c2]. *)
Definition holds (c1 c2 : Q) (x : @sample ArithQ) : Prop :=
  conc1 x == c1 /\ conc2 x == c2.

(** The sample [x] is the combination a y + b z of two samples taken at
    the same time. *)
Definition combines (a b : Q) (x y z : @sample ArithQ) : Prop :=
  tiempo y = tiempo x /\ tiempo z = tiempo x
  /\ conc1 x == a * conc1 y + b * conc1 z
  /\ conc2 x == a * conc2 y + b * conc2 z.

(** Both concentrations lie between 0 and [M]. *)
Definition within (M : Q) (x : @sample ArithQ) : Prop :=
  0 <= conc1 x <= M /\ 0 <= conc2 x <= M.

(** Two samples at the same time, the first with the lower
    concentrations. *)
Definition below (x y : @sample ArithQ) : Prop :=
  tiempo x = tiempo y /\ conc1 x <= conc1 y /\ conc2 x <= conc2 y.

(** Fully isolated reservoirs. *)
Definition sin_intercambio : @params ArithQ :=
  {| L_input := 0; CB := 1; t_descarga := 1; V1 := 100000; V2 := 200000;
     D1B := 0; D12 := 0; k1 := 0; k2 := 0 |}.

(** The variables after two steps of the default run. *)
Definition dos_pasos : @vars ArithQ :=
  final (runge_kutta_4 ejemplo (1 # 10) 2 0 0).

(** The same after two steps with both sliders at zero. *)
Definition dos_pasos_en_reposo : @vars ArithQ :=
  final (runge_kutta_4 en_reposo (1 # 10) 2 5 7).

(** Loop variables at a time past the discharge. *)
Definition tras_descarga : @vars ArithQ :=
  {| C1 := 5; C2 := 2; t := 3 # 2;
     t_list := [3 # 2]; C1_list := [5]; C2_list := [2] |}.

(** A zero volume for reservoir 1. *)
Definition sin_volumen : @params ArithQ :=
  {| L_input := 1000000; CB := 1; t_descarga := 1; V1 := 0; V2 := 200000;
     D1B := 16200; D12 := 5184; k1 := 2 # 10; k2 := 1 # 10 |}.

End ExactDefs.

(** ** Checks evaluated on binary64 runs *)

Section Binary64Defs.
#[local] Existing Instance ArithFloat.
Local Open Scope float_scope.

Fixpoint increasing (l : list float) : bool :=
  match l with
  | a :: (b :: _) as r => (a <? b) && increasing r
  | _ => true
  end.

(** Every time is within 2^-40 of its grid point i/10. *)
Definition near_grid (l : list float) : bool :=
  forallb (fun it => abs (snd it - float_of_int (Z.of_nat (fst it)) / 10) <=? 0x1p-40)
          (combine (seq 0 (length l)) l).

Definition all_zero (l : list float) : bool :=
  forallb (fun x => x =? 0) l.

(** The closed system of [aislado], in binary64. *)
Definition aislado64 : @params ArithFloat :=
  {| L_input := 0; CB := 1; t_descarga := 1; V1 := 100000; V2 := 200000;
     D1B := 0; D12 := 5184; k1 := 0; k2 := 0 |}.

(** V1 C1 + V2 C2 stays within a relative 2^-20 (below 1e-6) of its
    initial value [m0]. *)
Definition mass_within_tolerance (p : @params ArithFloat) (m0 : float)
    (l : list (@sample ArithFloat)) : bool :=
  forallb (fun x => abs (V1 p * conc1 x + V2 p * conc2 x - m0) <=? 0x1p-20 * m0) l.

End Binary64Defs.

(** ** Generic lemmas: which runs return, and what *)

Section Generic.
Context {R : Arith}.
Local Open Scope py_scope.

Lemma ok_final (r : result vars) : is_ok r = true -> r = Ok (final r).
Proof. destruct r; [reflexivity|discriminate]. Qed.

Lemma pydiv_ok (x y : num) : is_zero y = false -> pydiv x y = Ok (x / y).
Proof. unfold pydiv. intros ->. reflexivity. Qed.


Lemma derivadas_ok (p : params) (c1 c2 tm : num) :
  volumes_ok p ->
  derivadas p c1 c2 tm = Ok (dC1_dt p c1 c2 tm, dC2_dt p c1 c2).
Proof.
  intros [H1 H2]. unfold derivadas.
  rewrite (pydiv_ok _ _ H1). cbn [bind].
  rewrite (pydiv_ok _ _ H2). reflexivity.
Qed.

Lemma derivadas_returns (p : params) (c1 c2 tm : num) (r : num * num) :
  derivadas p c1 c2 tm = Ok r -> volumes_ok p.
Proof.
  unfold derivadas, pydiv, volumes_ok.
  destruct (is_zero (V1 p)); [discriminate|]. cbn [bind].
  destruct (is_zero (V2 p)); [discriminate|]. auto.
Qed.

Lemma rk4_body_ok (p : params) (dt : num) (s : vars) :
  volumes_ok p ->
  exists s', rk4_body p dt s = Ok s'
    /\ actual s' = paso p dt (actual s)
    /\ t_list s' = t_list s ++ [t s']
    /\ C1_list s' = C1_list s ++ [C1 s']
    /\ C2_list s' = C2_list s ++ [C2 s'].
Proof.
  intros Hv. unfold rk4_body.
  repeat (rewrite (derivadas_ok _ _ _ _ Hv); cbn [bind]).
  eexists. split; [reflexivity|]. cbn. repeat split.
Qed.

Lemma rk4_body_returns (p : params) (dt : num) (s s' : vars) :
  rk4_body p dt s = Ok s' -> volumes_ok p.
Proof.
  unfold rk4_body. destruct (derivadas p (C1 s) (C2 s) (t s)) eqn:E; [|discriminate].
  intros _. exact (derivadas_returns _ _ _ _ _ E).
Qed.

Lemma rk4_loop_ok (p : params) (dt : num) (n : nat) :
  volumes_ok p ->
  forall s, exists s',
    rk4_loop p dt n s = Ok s'
    /\ t_list s' = t_list s ++ map tiempo (orbit p dt n (actual s))
    /\ C1_list s' = C1_list s ++ map conc1 (orbit p dt n (actual s))
    /\ C2_list s' = C2_list s ++ map conc2 (orbit p dt n (actual s)).
Proof.
  intros Hv. induction n as [|n IH]; intros s.
  - exists s. cbn. rewrite !app_nil_r. auto.
  - destruct (rk4_body_ok p dt s Hv) as (s1 & E1 & Ha & Ht & H1 & H2).
    destruct (IH s1) as (s' & E' & Ht' & H1' & H2').
    exists s'. cbn [rk4_loop orbit map]. rewrite E1. cbn [bind].
    rewrite <- Ha. split; [exact E'|].
    rewrite Ht', H1', H2', Ht, H1, H2, <- !app_assoc. cbn. auto.
Qed.

Lemma rk4_loop_returns (p : params) (dt : num) (n : nat) (s s' : vars) :
  rk4_loop p dt (S n) s = Ok s' -> volumes_ok p.
Proof.
  cbn. destruct (rk4_body p dt s) as [s1|e] eqn:E; [|discriminate].
  intros _. exact (rk4_body_returns _ _ _ _ E).
Qed.

Lemma combine_samples (l : list sample) :
  combine (combine (map tiempo l) (map conc1 l)) (map conc2 l) = l.
Proof.
  induction l as [|[[a b] c] l IH]; cbn; [reflexivity|]. now rewrite IH.
Qed.


(** A run that returns holds the initial sample followed by its orbit. *)
Lemma runge_kutta_4_trajectory (p : params) (dt : num) (N : Z) (c1 c2 : num) (s : vars) :
  runge_kutta_4 p dt N c1 c2 = Ok s ->
  trajectory s = (of_int 0, c1, c2) :: orbit p dt (Z.to_nat N) (of_int 0, c1, c2).
Proof.
  unfold runge_kutta_4. destruct (Z.to_nat N) as [|n] eqn:En.
  - cbn. intros [= <-]. reflexivity.
  - intros E. pose proof (rk4_loop_returns _ _ _ _ _ E) as Hv.
    destruct (rk4_loop_ok p dt (S n) Hv (init c1 c2)) as (s' & E' & Ht & H1 & H2).
    rewrite E in E'. injection E' as <-.
    unfold trajectory. rewrite Ht, H1, H2.
    change (actual (init c1 c2)) with (of_int 0, c1, c2).
    set (o := orbit p dt (S n) (of_int 0, c1, c2)).
    cbn [init t_list C1_list C2_list app combine].
    now rewrite combine_samples.
Qed.

Lemma runge_kutta_4_ok (p : params) (dt : num) (N : Z) (c1 c2 : num) :
  volumes_ok p -> exists s, runge_kutta_4 p dt N c1 c2 = Ok s.
Proof.
  intros Hv. destruct (rk4_loop_ok p dt (Z.to_nat N) Hv (init c1 c2)) as (s & E & _).
  now exists s.
Qed.

Lemma runge_kutta_4_no_steps (p : params) (dt : num) (N : Z) (c1 c2 : num) :
  (N <= 0)%Z -> runge_kutta_4 p dt N c1 c2 = Ok (init c1 c2).
Proof.
  intros HN. unfold runge_kutta_4.
  replace (Z.to_nat N) with O by lia. reflexivity.
Qed.

Lemma orbit_length (p : params) (dt : num) (n : nat) (x : sample) :
  length (orbit p dt n x) = n.
Proof. revert x. induction n; intros x; cbn; [reflexivity|]. now rewrite IHn. Qed.

(** The sample after position [i] of an orbit is one [paso] away. *)
Lemma orbit_markov (p : params) (dt : num) (n : nat) (x d : sample) (i : nat) :
  (i < n)%nat ->
  nth (S i) (x :: orbit p dt n x) d = paso p dt (nth i (x :: orbit p dt n x) d).
Proof.
  revert x i. induction n as [|n IH]; intros x i Hi; [lia|].
  destruct i as [|i]; [reflexivity|].
  cbn [orbit]. 
  change (nth (S (S i)) (x :: paso p dt x :: orbit p dt n (paso p dt x)) d)
    with (nth (S i) (paso p dt x :: orbit p dt n (paso p dt x)) d).
  change (nth (S i) (x :: paso p dt x :: orbit p dt n (paso p dt x)) d)
    with (nth i (paso p dt x :: orbit p dt n (paso p dt x)) d).
  apply IH. lia.
Qed.

End Generic.

(** ** Properties that hold in every arithmetic *)

Section Claims.
Context {R : Arith}.
Local Open Scope py_scope.

(** C1. For every state (C1, C2) and every time t, [derivadas] returns
    exactly dC1/dt = (1/V1) (D1B (CB - C1) + D12 (C2 - C1) + L(t)) - k1 C1
    and dC2/dt = (1/V2) (D12 (C1 - C2)) - k2 C2, with L(t) the time-gated
    source term.  The volumes are nonzero, as the data model requires
    (the script divides by them). *)
Theorem derivadas_is_model (p : params) (c1 c2 tm : num) :
  volumes_ok p ->
  derivadas p c1 c2 tm = Ok (Spec.Model p c1 c2 tm).
Proof.
  intros Hv. rewrite (derivadas_ok p c1 c2 tm Hv). reflexivity.
Qed.

(** C9. The dC2/dt component returned by [derivadas] depends only on
    (C1, C2): calls with the same (C1, C2) but other t, L_input or CB
    return the same dC2/dt. *)
Theorem dC2_dt_independent (p : params) (c1 c2 tm tm' L' CB' : num) :
  volumes_ok p ->
  exists a a' b : num,
    derivadas p c1 c2 tm = Ok (a, b)
    /\ derivadas (con_entradas p L' CB') c1 c2 tm' = Ok (a', b).
Proof.
  intros Hv.
  assert (Hv' : volumes_ok (con_entradas p L' CB')) by exact Hv.
  rewrite (derivadas_ok _ c1 c2 tm Hv), (derivadas_ok _ c1 c2 tm' Hv').
  do 3 eexists. split; reflexivity.
Qed.

(** C8. The integration is deterministic: two runs with identical
    parameters, dt and initial state produce identical results; and each
    sample of a trajectory is a function ([paso p dt]) of the sample
    immediately before it only. *)
Theorem deterministic_markov :
  (forall (p p' : params) (Tmax Tmax' dt dt' c1 c1' c2 c2' : num),
      p = p' -> Tmax = Tmax' -> dt = dt' -> c1 = c1' -> c2 = c2' ->
      simulate p Tmax dt c1 c2 = simulate p' Tmax' dt' c1' c2')
  /\ (forall (p : params) (dt : num),
        exists f : sample -> sample,
          forall (N : Z) (c1 c2 : num) (s : vars),
            runge_kutta_4 p dt N c1 c2 = Ok s ->
            length (trajectory s) = S (Z.to_nat N)
            /\ forall (i : nat) (d : sample),
                (i < Z.to_nat N)%nat ->
                nth (S i) (trajectory s) d = f (nth i (trajectory s) d))
  /\ (forall (p : params) (dt : num) (N : Z) (c1 c2 : num),
        volumes_ok p -> exists s, runge_kutta_4 p dt N c1 c2 = Ok s).
Proof.
  split; [|split].
  - intros; subst; reflexivity.
  - intros p dt. exists (paso p dt). intros N c1 c2 s E.
    rewrite (runge_kutta_4_trajectory _ _ _ _ _ _ E). split.
    + exact (f_equal S (orbit_length _ _ _ _)).
    + intros i d Hi. now apply orbit_markov.
  - intros. now apply runge_kutta_4_ok.
Qed.

End Claims.

(** ** Exact arithmetic *)

Section Exact.
#[local] Existing Instance ArithQ.
Local Open Scope Q_scope.

Ltac q_ops :=
  cbn [num of_int add sub mul div ltb is_zero to_int ArithQ] in *.

Lemma is_zero_false (x : Q) : @is_zero ArithQ x = false <-> ~ x == 0.
Proof.
  q_ops. split.
  - intros H E. apply Qeq_bool_iff in E. congruence.
  - intros H. destruct (Qeq_bool x 0) eqn:E; [|reflexivity].
    apply Qeq_bool_iff in E. contradiction.
Qed.


Lemma Qltb_true (x y : Q) : Qltb x y = true <-> x < y.
Proof.
  unfold Qltb. rewrite negb_true_iff. split.
  - intros H. apply Qnot_le_lt. intros E. apply Qle_bool_iff in E. congruence.
  - intros H. destruct (Qle_bool y x) eqn:E; [|reflexivity].
    apply Qle_bool_iff in E. exfalso. exact (Qlt_not_le _ _ H E).
Qed.

Lemma Qltb_false (x y : Q) : Qltb x y = false <-> y <= x.
Proof.
  unfold Qltb. rewrite negb_false_iff. apply Qle_bool_iff.
Qed.



Lemma dC1_dt_compat (p : @params ArithQ) (tm c1 c1' c2 c2' : Q) :
  c1 == c1' -> c2 == c2' -> dC1_dt p c1 c2 tm == dC1_dt p c1' c2' tm.
Proof. unfold dC1_dt. q_ops. intros -> ->. reflexivity. Qed.

Lemma dC2_dt_compat (p : @params ArithQ) (c1 c1' c2 c2' : Q) :
  c1 == c1' -> c2 == c2' -> dC2_dt p c1 c2 == dC2_dt p c1' c2'.
Proof. unfold dC2_dt. q_ops. intros -> ->. reflexivity. Qed.

Lemma Model_pure (p : @params ArithQ) (c1 c2 tm : Q) :
  Spec.Model p c1 c2 tm = (dC1_dt p c1 c2 tm, dC2_dt p c1 c2).
Proof. reflexivity. Qed.

(** Names for the four stages of [paso] at the sample [(tm, c1, c2)]. *)
Ltac name_stages p dt tm c1 c2 :=
  set (A1 := dC1_dt p c1 c2 tm);
  set (A2 := dC2_dt p c1 c2);
  set (B1 := dC1_dt p (c1 + dt * A1 / inject_Z 2) (c2 + dt * A2 / inject_Z 2)
                    (tm + dt / inject_Z 2));
  set (B2 := dC2_dt p (c1 + dt * A1 / inject_Z 2) (c2 + dt * A2 / inject_Z 2));
  set (G1 := dC1_dt p (c1 + dt * B1 / inject_Z 2) (c2 + dt * B2 / inject_Z 2)
                    (tm + dt / inject_Z 2));
  set (G2 := dC2_dt p (c1 + dt * B1 / inject_Z 2) (c2 + dt * B2 / inject_Z 2));
  set (E1 := dC1_dt p (c1 + dt * G1) (c2 + dt * G2) (tm + dt));
  set (E2 := dC2_dt p (c1 + dt * G1) (c2 + dt * G2)).

Lemma paso_stages (p : @params ArithQ) (dt : Q) (tm c1 c2 : @num ArithQ) :
  exists a1 a2 b1 b2 g1 g2 e1 e2 : Q,
    paso p dt (tm, c1, c2)
    = (tm + dt,
       c1 + dt / 6 * (a1 + 2 * b1 + 2 * g1 + e1),
       c2 + dt / 6 * (a2 + 2 * b2 + 2 * g2 + e2))
    /\ a1 = dC1_dt p c1 c2 tm
    /\ a2 = dC2_dt p c1 c2
    /\ b1 = dC1_dt p (c1 + dt * a1 / 2) (c2 + dt * a2 / 2) (tm + dt / 2)
    /\ b2 = dC2_dt p (c1 + dt * a1 / 2) (c2 + dt * a2 / 2)
    /\ g1 = dC1_dt p (c1 + dt * b1 / 2) (c2 + dt * b2 / 2) (tm + dt / 2)
    /\ g2 = dC2_dt p (c1 + dt * b1 / 2) (c2 + dt * b2 / 2)
    /\ e1 = dC1_dt p (c1 + dt * g1) (c2 + dt * g2) (tm + dt)
    /\ e2 = dC2_dt p (c1 + dt * g1) (c2 + dt * g2).
Proof.
  unfold paso. q_ops. cbv zeta. name_stages p dt tm c1 c2.
  exists A1, A2, B1, B2, G1, G2, E1, E2. repeat split.
Qed.

Lemma paso_RK4 (p : @params ArithQ) (dt : Q) (x : sample) :
  sample_eq (paso p dt x) (Spec.RK4 p dt x).
Proof.
  destruct x as [[tm c1] c2].
  destruct (paso_stages p dt tm c1 c2)
    as (a1 & a2 & b1 & b2 & g1 & g2 & e1 & e2 & -> & Ha1 & Ha2 & Hb1 & Hb2 & Hg1 & Hg2 & He1 & He2).
  unfold Spec.RK4. rewrite !Model_pure. cbn [fst snd]. q_ops. cbv zeta.
  rewrite <- Ha1, <- Ha2.
  set (b1' := dC1_dt p (c1 + dt / inject_Z 2 * a1) (c2 + dt / inject_Z 2 * a2)
                     (tm + dt / inject_Z 2)).
  set (b2' := dC2_dt p (c1 + dt / inject_Z 2 * a1) (c2 + dt / inject_Z 2 * a2)).
  set (g1' := dC1_dt p (c1 + dt / inject_Z 2 * b1') (c2 + dt / inject_Z 2 * b2')
                     (tm + dt / inject_Z 2)).
  set (g2' := dC2_dt p (c1 + dt / inject_Z 2 * b1') (c2 + dt / inject_Z 2 * b2')).
  set (e1' := dC1_dt p (c1 + dt * g1') (c2 + dt * g2') (tm + dt)).
  set (e2' := dC2_dt p (c1 + dt * g1') (c2 + dt * g2')).
  assert (Eb1 : b1 == b1') by (rewrite Hb1; apply dC1_dt_compat; field).
  assert (Eb2 : b2 == b2') by (rewrite Hb2; apply dC2_dt_compat; field).
  assert (Eg1 : g1 == g1')
    by (rewrite Hg1; apply dC1_dt_compat; rewrite ?Eb1, ?Eb2; field).
  assert (Eg2 : g2 == g2')
    by (rewrite Hg2; apply dC2_dt_compat; rewrite ?Eb1, ?Eb2; field).
  assert (Ee1 : e1 == e1')
    by (rewrite He1; apply dC1_dt_compat; rewrite ?Eg1, ?Eg2; reflexivity).
  assert (Ee2 : e2 == e2')
    by (rewrite He2; apply dC2_dt_compat; rewrite ?Eg1, ?Eg2; reflexivity).
  unfold sample_eq, tiempo, conc1, conc2. cbn [fst snd].
  rewrite Eb1, Eb2, Eg1, Eg2, Ee1, Ee2. unfold inject_Z.
  repeat split; reflexivity.
Qed.

(** C2. Each integration step, from the current (C1, C2, t) and step size
    h = dt, computes the four classical RK4 stages (k_a at the current
    sample, k_b and k_c at the half-step probes and time t + h/2, k_d at
    the full-step probe and time t + h), adds (h/6)(k_a + 2 k_b + 2 k_c +
    k_d) to each concentration and h to the time, and appends the new
    sample to the three lists. *)
Theorem rk4_body_is_RK4 (p : @params ArithQ) (dt : Q) (s : vars) :
  volumes_ok p ->
  exists s' : vars,
    rk4_body p dt s = Ok s'
    /\ sample_eq (actual s') (Spec.RK4 p dt (actual s))
    /\ t s' = t s + dt
    /\ t_list s' = t_list s ++ [t s']
    /\ C1_list s' = C1_list s ++ [C1 s']
    /\ C2_list s' = C2_list s ++ [C2 s'].
Proof.
  intros Hv. destruct (rk4_body_ok p dt s Hv) as (s' & E & Ha & Ht & H1 & H2).
  exists s'. split; [exact E|]. split; [rewrite Ha; apply paso_RK4|].
  split; [|auto]. change (t s') with (tiempo (actual s')). now rewrite Ha.
Qed.

(** *** The source term *)

Lemma carga_before (p : @params ArithQ) (tm : Q) :
  tm < t_descarga p -> carga p tm = L_input p.
Proof. intros H. unfold carga. q_ops. apply Qltb_true in H. now rewrite H. Qed.

Lemma carga_after (p : @params ArithQ) (tm : Q) :
  t_descarga p <= tm -> carga p tm = 0.
Proof. intros H. unfold carga. q_ops. apply Qltb_false in H. now rewrite H. Qed.

Lemma carga_off (p : @params ArithQ) (tm : Q) : carga (sin_carga p) tm = 0.
Proof. unfold carga. cbn. now destruct (Qltb tm (t_descarga p)). Qed.

Lemma carga_zero (p : @params ArithQ) (tm : Q) :
  L_input p == 0 -> carga p tm == 0.
Proof.
  intros H. unfold carga. q_ops.
  destruct (Qltb tm (t_descarga p)); [exact H|reflexivity].
Qed.

Lemma volumes_nonzero (p : @params ArithQ) :
  volumes_ok p -> ~ V1 p == 0 /\ ~ V2 p == 0.
Proof. intros [H1 H2]. split; now apply is_zero_false. Qed.

(** C3. The source term in [derivadas] is a hard cutoff: for t < t_descarga
    it contributes L_input/V1 to dC1/dt (the difference with the same call
    with the source switched off), and for t >= t_descarga it contributes
    exactly 0 (the two calls return the same pair); dC2/dt never sees it. *)
Theorem source_hard_cutoff (p : @params ArithQ) (c1 c2 tm : Q) :
  volumes_ok p ->
  exists d1 d2 b1 b2 : Q,
    derivadas p c1 c2 tm = Ok (d1, d2)
    /\ derivadas (sin_carga p) c1 c2 tm = Ok (b1, b2)
    /\ (tm < t_descarga p -> d1 - b1 == L_input p / V1 p)
    /\ (t_descarga p <= tm -> d1 = b1 /\ d1 - b1 == 0)
    /\ d2 = b2.
Proof.
  intros Hv.
  assert (Hv' : volumes_ok (sin_carga p)) by exact Hv.
  destruct (volumes_nonzero p Hv) as [HV1 _].
  rewrite (derivadas_ok p c1 c2 tm Hv), (derivadas_ok (sin_carga p) c1 c2 tm Hv').
  do 4 eexists. split; [reflexivity|]. split; [reflexivity|].
  unfold dC1_dt. rewrite carga_off. split; [|split].
  - intros H. rewrite (carga_before p tm H). cbn. field. exact HV1.
  - intros H. rewrite (carga_after p tm H). cbn. split; [reflexivity|ring].
  - reflexivity.
Qed.

(** *** Mass balance *)

Lemma derivative_balance (p : @params ArithQ) (c1 c2 tm : Q) :
  volumes_ok p -> closed_system p ->
  V1 p * dC1_dt p c1 c2 tm + V2 p * dC2_dt p c1 c2 == 0.
Proof.
  intros Hv (Hk1 & Hk2 & HD & HL).
  destruct (volumes_nonzero p Hv) as [HV1 HV2].
  unfold dC1_dt, dC2_dt. q_ops.
  rewrite (carga_zero p tm HL), Hk1, Hk2, HD. unfold inject_Z.
  field. split; assumption.
Qed.

Lemma paso_masa (p : @params ArithQ) (dt : Q) (x : sample) :
  volumes_ok p -> closed_system p -> masa p (paso p dt x) == masa p x.
Proof.
  intros Hv Hc. destruct x as [[tm c1] c2].
  destruct (paso_stages p dt tm c1 c2)
    as (a1 & a2 & b1 & b2 & g1 & g2 & e1 & e2 & -> & Ha1 & Ha2 & Hb1 & Hb2 & Hg1 & Hg2 & He1 & He2).
  assert (Ea : V1 p * a1 + V2 p * a2 == 0)
    by (rewrite Ha1, Ha2; now apply derivative_balance).
  assert (Eb : V1 p * b1 + V2 p * b2 == 0)
    by (rewrite Hb1, Hb2; now apply derivative_balance).
  assert (Eg : V1 p * g1 + V2 p * g2 == 0)
    by (rewrite Hg1, Hg2; now apply derivative_balance).
  assert (Ee : V1 p * e1 + V2 p * e2 == 0)
    by (rewrite He1, He2; now apply derivative_balance).
  unfold masa, conc1, conc2. cbn [fst snd].
  setoid_replace (V1 p * (c1 + dt / 6 * (a1 + 2 * b1 + 2 * g1 + e1))
                  + V2 p * (c2 + dt / 6 * (a2 + 2 * b2 + 2 * g2 + e2)))
    with (V1 p * c1 + V2 p * c2
          + dt / 6 * ((V1 p * a1 + V2 p * a2) + 2 * (V1 p * b1 + V2 p * b2)
                      + 2 * (V1 p * g1 + V2 p * g2) + (V1 p * e1 + V2 p * e2)))
    by field.
  rewrite Ea, Eb, Eg, Ee. field.
Qed.

Lemma orbit_masa (p : @params ArithQ) (dt : Q) (n : nat) (x : sample) :
  volumes_ok p -> closed_system p ->
  Forall (fun y => masa p y == masa p x) (orbit p dt n x).
Proof.
  intros Hv Hc. revert x. induction n as [|n IH]; intros x; cbn [orbit].
  - constructor.
  - constructor; [now apply paso_masa|].
    eapply Forall_impl; [|apply IH]. cbn beta. intros y Hy.
    rewrite Hy. now apply paso_masa.
Qed.

(** C6. With k1 = k2 = 0, D1B = 0 and L_input = 0 the quantity
    V1 C1 + V2 C2 is constant along the whole trajectory: every RK4 step
    preserves it exactly, in exact arithmetic. *)
Theorem mass_conserved (p : @params ArithQ) (dt : Q) :
  volumes_ok p -> closed_system p ->
  (forall s : vars, exists s' : vars,
      rk4_body p dt s = Ok s' /\ masa p (actual s') == masa p (actual s))
  /\ (forall (N : Z) (c1 c2 : Q), exists s : vars,
        runge_kutta_4 p dt N c1 c2 = Ok s
        /\ length (trajectory s) = S (Z.to_nat N)
        /\ Forall (fun x => V1 p * conc1 x + V2 p * conc2 x == V1 p * c1 + V2 p * c2)
                  (trajectory s)).
Proof.
  intros Hv Hc. split.
  - intros s. destruct (rk4_body_ok p dt s Hv) as (s' & E & Ha & _).
    exists s'. split; [exact E|]. rewrite Ha. now apply paso_masa.
  - intros N c1 c2. destruct (runge_kutta_4_ok p dt N c1 c2 Hv) as [s E].
    exists s. split; [exact E|].
    rewrite (runge_kutta_4_trajectory _ _ _ _ _ _ E). split.
    + exact (f_equal S (orbit_length _ _ _ _)).
    + constructor; [reflexivity|].
      exact (orbit_masa p dt (Z.to_nat N) (0, c1, c2) Hv Hc).
Qed.

(** *** The trivial equilibrium *)

Lemma derivative_origin (p : @params ArithQ) (c1 c2 tm : Q) :
  L_input p == 0 -> CB p == 0 -> c1 == 0 -> c2 == 0 ->
  dC1_dt p c1 c2 tm == 0 /\ dC2_dt p c1 c2 == 0.
Proof.
  intros HL HB H1 H2. unfold dC1_dt, dC2_dt. q_ops.
  rewrite (carga_zero p tm HL), HB, H1, H2. unfold inject_Z, Qdiv.
  split; ring.
Qed.

Lemma paso_origin (p : @params ArithQ) (dt : Q) (x : sample) :
  L_input p == 0 -> CB p == 0 -> at_origin x -> at_origin (paso p dt x).
Proof.
  intros HL HB. destruct x as [[tm c1] c2]. unfold at_origin, conc1, conc2.
  cbn [fst snd]. intros [H1 H2].
  destruct (paso_stages p dt tm c1 c2)
    as (a1 & a2 & b1 & b2 & g1 & g2 & e1 & e2 & -> & Ha1 & Ha2 & Hb1 & Hb2 & Hg1 & Hg2 & He1 & He2).
  assert (Ea : a1 == 0 /\ a2 == 0)
    by (rewrite Ha1, Ha2; now apply derivative_origin).
  destruct Ea as [Ea1 Ea2].
  assert (Eb : b1 == 0 /\ b2 == 0)
    by (rewrite Hb1, Hb2; apply derivative_origin; auto;
        rewrite ?H1, ?H2, ?Ea1, ?Ea2; unfold Qdiv; ring).
  destruct Eb as [Eb1 Eb2].
  assert (Eg : g1 == 0 /\ g2 == 0)
    by (rewrite Hg1, Hg2; apply derivative_origin; auto;
        rewrite ?H1, ?H2, ?Eb1, ?Eb2; unfold Qdiv; ring).
  destruct Eg as [Eg1 Eg2].
  assert (Ee : e1 == 0 /\ e2 == 0)
    by (rewrite He1, He2; apply derivative_origin; auto;
        rewrite ?H1, ?H2, ?Eg1, ?Eg2; ring).
  destruct Ee as [Ee1 Ee2].
  cbn [fst snd].
  rewrite H1, H2, Ea1, Ea2, Eb1, Eb2, Eg1, Eg2, Ee1, Ee2. unfold Qdiv.
  split; ring.
Qed.

Lemma orbit_origin (p : @params ArithQ) (dt : Q) (n : nat) (x : sample) :
  L_input p == 0 -> CB p == 0 -> at_origin x ->
  Forall at_origin (orbit p dt n x).
Proof.
  intros HL HB. revert x. induction n as [|n IH]; intros x Hx; cbn [orbit].
  - constructor.
  - pose proof (paso_origin p dt x HL HB Hx) as Hx'.
    constructor; [exact Hx'|]. now apply IH.
Qed.

(** C7. With L_input = 0, CB = 0 and zero initial state, every sample of
    the trajectory is (0, 0): the origin is a fixed point that every RK4
    step preserves. *)
Theorem origin_is_fixed (p : @params ArithQ) (dt : Q) :
  volumes_ok p -> L_input p == 0 -> CB p == 0 ->
  (forall s : vars, C1 s == 0 -> C2 s == 0 -> exists s' : vars,
      rk4_body p dt s = Ok s' /\ C1 s' == 0 /\ C2 s' == 0)
  /\ (forall N : Z, exists s : vars,
        runge_kutta_4 p dt N 0 0 = Ok s
        /\ length (trajectory s) = S (Z.to_nat N)
        /\ Forall (fun x => conc1 x == 0 /\ conc2 x == 0) (trajectory s)).
Proof.
  intros Hv HL HB. split.
  - intros s H1 H2. destruct (rk4_body_ok p dt s Hv) as (s' & E & Ha & _).
    exists s'. split; [exact E|].
    change (at_origin (actual s')). rewrite Ha.
    apply paso_origin; auto. split; assumption.
  - intros N. destruct (runge_kutta_4_ok p dt N 0 0 Hv) as [s E].
    exists s. split; [exact E|].
    rewrite (runge_kutta_4_trajectory _ _ _ _ _ _ E). split.
    + exact (f_equal S (orbit_length _ _ _ _)).
    + assert (H0 : at_origin (0, 0, 0)) by (split; reflexivity).
      constructor; [exact H0|].
      exact (orbit_origin p dt (Z.to_nat N) (0, 0, 0) HL HB H0).
Qed.

(** *** The time grid *)

Lemma paso_tiempo (p : @params ArithQ) (dt : Q) (x : sample) :
  tiempo (paso p dt x) = tiempo x + dt.
Proof. destruct x as [[tm c1] c2]. reflexivity. Qed.

Lemma orbit_times (p : @params ArithQ) (dt : Q) (n : nat) (x d : sample) (i : nat) :
  (i <= n)%nat ->
  tiempo (nth i (x :: orbit p dt n x) d) == tiempo x + inject_Z (Z.of_nat i) * dt.
Proof.
  revert x i. induction n as [|n IH]; intros x i Hi.
  - replace i with O by lia. cbn [nth Z.of_nat inject_Z].
    now rewrite Qmult_0_l, Qplus_0_r.
  - destruct i as [|i];
      [cbn [nth Z.of_nat inject_Z]; now rewrite Qmult_0_l, Qplus_0_r|].
    cbn [orbit].
    change (nth (S i) (x :: paso p dt x :: orbit p dt n (paso p dt x)) d)
      with (nth i (paso p dt x :: orbit p dt n (paso p dt x)) d).
    rewrite IH by lia. rewrite paso_tiempo, Nat2Z.inj_succ.
    unfold Z.succ. rewrite inject_Z_plus. cbn [inject_Z]. ring.
Qed.



Lemma runge_kutta_4_grid (p : @params ArithQ) (dt : Q) (N : Z) (c1 c2 : Q) :
  volumes_ok p -> 0 < dt ->
  exists s : vars,
    runge_kutta_4 p dt N c1 c2 = Ok s /\ on_grid dt c1 c2 (Z.to_nat N) s.
Proof.
  intros Hv Hdt. destruct (runge_kutta_4_ok p dt N c1 c2 Hv) as [s E].
  exists s. split; [exact E|]. unfold on_grid.
  rewrite (runge_kutta_4_trajectory _ _ _ _ _ _ E). cbn [of_int ArithQ].
  assert (Ht : forall i d, (i <= Z.to_nat N)%nat ->
    tiempo (nth i ((inject_Z 0, c1, c2) :: orbit p dt (Z.to_nat N) (inject_Z 0, c1, c2)) d)
    == inject_Z (Z.of_nat i) * dt).
  { intros i d Hi. rewrite orbit_times by exact Hi. cbn. ring. }
  split; [exact (f_equal S (orbit_length _ _ _ _))|].
  split; [reflexivity|]. split; [exact Ht|].
  intros i d Hi.
  assert (Hd : tiempo (nth (S i) ((inject_Z 0, c1, c2)
                 :: orbit p dt (Z.to_nat N) (inject_Z 0, c1, c2)) d)
               - tiempo (nth i ((inject_Z 0, c1, c2)
                 :: orbit p dt (Z.to_nat N) (inject_Z 0, c1, c2)) d) == dt).
  { rewrite !Ht by lia. rewrite Nat2Z.inj_succ. unfold Z.succ.
    rewrite inject_Z_plus. cbn [inject_Z]. ring. }
  split; [exact Hd|].
  apply Qlt_minus_iff. rewrite Hd. exact Hdt.
Qed.


Lemma Fijos_D1B_Q : @Fijos.D1B ArithQ = Ok (12960000 # 800).
Proof. reflexivity. Qed.

Lemma Fijos_D12_Q : @Fijos.D12 ArithQ = Ok (6220800 # 1200).
Proof. reflexivity. Qed.

Lemma Fijos_N_Q : @Fijos.N ArithQ = Ok 300%Z.
Proof. reflexivity. Qed.

Lemma parametros_volumes (Li Bi d1 d2 : Q) : volumes_ok (parametros Li Bi d1 d2).
Proof. split; reflexivity. Qed.

Lemma modelo_dbo_app_Q (Li Bi : Q) :
  modelo_dbo_app Li Bi
  = runge_kutta_4 (parametros Li Bi (12960000 # 800) (6220800 # 1200))
                  (1 # 10) 300 0 0.
Proof.
  unfold modelo_dbo_app. rewrite Fijos_D1B_Q, Fijos_D12_Q, Fijos_N_Q.
  reflexivity.
Qed.

Lemma modelo_dbo_app_grid (Li Bi : Q) :
  exists s : vars,
    modelo_dbo_app Li Bi = Ok s /\ on_grid (1 # 10) 0 0 300 s.
Proof.
  rewrite modelo_dbo_app_Q.
  apply (runge_kutta_4_grid (@parametros ArithQ Li Bi (12960000 # 800) (6220800 # 1200))
           (1 # 10) 300 0 0 (parametros_volumes _ _ _ _)).
  reflexivity.
Qed.


(** *** No validation of the time grid *)




(** *** The conductances *)

(** C10. The conductances are computed as D = E A / L * 86400 from the
    fixed geometry: D1B = 0.6 * 25 / 80 * 86400 = 16200 and
    D12 = 0.4 * 18 / 120 * 86400 = 5184, in exact arithmetic. *)
Theorem conductances_exact :
  (exists d : Q,
      @Fijos.D1B ArithQ = Ok d
      /\ d == (6 # 10) * 25 / 80 * 86400 /\ d == 16200)
  /\ (exists d : Q,
        @Fijos.D12 ArithQ = Ok d
        /\ d == (4 # 10) * 18 / 120 * 86400 /\ d == 5184).
Proof.
  split.
  - exists (12960000 # 800). split; [exact Fijos_D1B_Q|]. split; reflexivity.
  - exists (6220800 # 1200). split; [exact Fijos_D12_Q|]. split; reflexivity.
Qed.

(** *** Concrete instances *)

Lemma derivadas_is_model_witness :
  volumes_ok ejemplo
  /\ derivadas ejemplo 1 2 (1 # 2) = Ok (Spec.Model ejemplo 1 2 (1 # 2)).
Proof.
  assert (Hv : volumes_ok ejemplo) by (split; reflexivity).
  exact (conj Hv (derivadas_is_model ejemplo 1 2 (1 # 2) Hv)).
Defined.

Lemma dC2_dt_independent_witness :
  volumes_ok ejemplo
  /\ exists a a' b : Q,
      derivadas ejemplo 1 2 (1 # 2) = Ok (a, b)
      /\ derivadas (con_entradas ejemplo 0 5) 1 2 3 = Ok (a', b).
Proof.
  assert (Hv : volumes_ok ejemplo) by (split; reflexivity).
  exact (conj Hv (dC2_dt_independent ejemplo 1 2 (1 # 2) 3 0 5 Hv)).
Defined.

Lemma deterministic_markov_witness :
  volumes_ok ejemplo
  /\ exists s : vars, runge_kutta_4 ejemplo (1 # 10) 3 0 0 = Ok s.
Proof.
  assert (Hv : volumes_ok ejemplo) by (split; reflexivity).
  exact (conj Hv (proj2 (proj2 deterministic_markov) ejemplo (1 # 10) 3%Z 0 0 Hv)).
Defined.

Lemma rk4_body_is_RK4_witness :
  volumes_ok ejemplo
  /\ exists s' : vars,
      rk4_body ejemplo (1 # 10) (init 0 0) = Ok s'
      /\ sample_eq (actual s') (Spec.RK4 ejemplo (1 # 10) (actual (init 0 0)))
      /\ t s' = t (init 0 0) + (1 # 10)
      /\ t_list s' = t_list (init 0 0) ++ [t s']
      /\ C1_list s' = C1_list (init 0 0) ++ [C1 s']
      /\ C2_list s' = C2_list (init 0 0) ++ [C2 s'].
Proof.
  assert (Hv : volumes_ok ejemplo) by (split; reflexivity).
  exact (conj Hv (rk4_body_is_RK4 ejemplo (1 # 10) (init 0 0) Hv)).
Defined.

Lemma source_hard_cutoff_witness :
  volumes_ok ejemplo
  /\ exists d1 d2 b1 b2 : Q,
      derivadas ejemplo 1 2 (1 # 2) = Ok (d1, d2)
      /\ derivadas (sin_carga ejemplo) 1 2 (1 # 2) = Ok (b1, b2)
      /\ ((1 # 2) < t_descarga ejemplo -> d1 - b1 == L_input ejemplo / V1 ejemplo)
      /\ (t_descarga ejemplo <= (1 # 2) -> d1 = b1 /\ d1 - b1 == 0)
      /\ d2 = b2.
Proof.
  assert (Hv : volumes_ok ejemplo) by (split; reflexivity).
  exact (conj Hv (source_hard_cutoff ejemplo 1 2 (1 # 2) Hv)).
Defined.



Lemma mass_conserved_witness :
  volumes_ok aislado /\ closed_system aislado
  /\ (forall s : vars, exists s' : vars,
        rk4_body aislado (1 # 10) s = Ok s'
        /\ masa aislado (actual s') == masa aislado (actual s))
  /\ (forall (N : Z) (c1 c2 : Q), exists s : vars,
        runge_kutta_4 aislado (1 # 10) N c1 c2 = Ok s
        /\ length (trajectory s) = S (Z.to_nat N)
        /\ Forall (fun x => V1 aislado * conc1 x + V2 aislado * conc2 x
                            == V1 aislado * c1 + V2 aislado * c2)
                  (trajectory s)).
Proof.
  assert (Hv : volumes_ok aislado) by (split; reflexivity).
  assert (Hc : closed_system aislado) by (repeat split; reflexivity).
  exact (conj Hv (conj Hc (mass_conserved aislado (1 # 10) Hv Hc))).
Defined.

Lemma origin_is_fixed_witness :
  volumes_ok en_reposo /\ L_input en_reposo == 0 /\ CB en_reposo == 0
  /\ (forall s : vars, C1 s == 0 -> C2 s == 0 -> exists s' : vars,
        rk4_body en_reposo (1 # 10) s = Ok s' /\ C1 s' == 0 /\ C2 s' == 0)
  /\ (forall N : Z, exists s : vars,
        runge_kutta_4 en_reposo (1 # 10) N 0 0 = Ok s
        /\ length (trajectory s) = S (Z.to_nat N)
        /\ Forall (fun x => conc1 x == 0 /\ conc2 x == 0) (trajectory s)).
Proof.
  assert (Hv : volumes_ok en_reposo) by (split; reflexivity).
  assert (HL : L_input en_reposo == 0) by reflexivity.
  assert (HB : CB en_reposo == 0) by reflexivity.
  exact (conj Hv (conj HL (conj HB (origin_is_fixed en_reposo (1 # 10) Hv HL HB)))).
Defined.

End Exact.

(** ** Binary64: what CPython computes *)

Section Binary64.
#[local] Existing Instance ArithFloat.
Local Open Scope float_scope.

(** The quotients that stand for the script's decimal literals are the
    doubles the literals denote. *)
Lemma literals_binary64 :
  lit 1 10 = 0x1.999999999999ap-4
  /\ lit 2 10 = 0x1.999999999999ap-3
  /\ lit 4 10 = 0x1.999999999999ap-2
  /\ lit 6 10 = 0x1.3333333333333p-1.
Proof. repeat match goal with |- _ /\ _ => split end; vm_compute; reflexivity. Qed.

Lemma conductances_binary64 :
  Fijos.D1B = Ok 16200 /\ Fijos.D12 = Ok 5184 /\ Fijos.N = Ok 300%Z.
Proof. repeat match goal with |- _ /\ _ => split end; vm_compute; reflexivity. Qed.

(** The scenario of the specification, run in binary64: 301 samples from
    (0, 0, 0), strictly increasing times; the times are running sums of
    0.1, so they sit on the grid up to rounding only. *)
Lemma modelo_dbo_app_binary64 :
  exists s : vars,
    modelo_dbo_app 1000000 1 = Ok s
    /\ length (trajectory s) = 301%nat
    /\ hd_error (trajectory s) = Some (0, 0, 0)
    /\ increasing (t_list s) = true
    /\ near_grid (t_list s) = true
    /\ nth 3 (t_list s) 0 = 0x1.3333333333334p-2
    /\ last (t_list s) 0 = 0x1.e00000000002cp+4.
Proof.
  exists (final (@modelo_dbo_app ArithFloat 1000000 1)).
  split; [apply ok_final; vm_compute; reflexivity|].
  repeat match goal with |- _ /\ _ => split end; vm_compute; reflexivity.
Qed.

(** The running sum reaches 0.9999999999999999 after ten steps, still
    below t_descarga = 1.0, so the eleventh step starts with the source
    on; in exact arithmetic that time is 1 and the source is off. *)
Lemma cutoff_drift_binary64 :
  let s := final (@modelo_dbo_app ArithFloat 1000000 1) in
  nth 10 (t_list s) 0 = 0x1.fffffffffffffp-1
  /\ (nth 10 (t_list s) 0 <? Fijos.t_descarga) = true.
Proof.
  cbv zeta.
  repeat match goal with |- _ /\ _ => split end; vm_compute; reflexivity.
Qed.

(** With both sliders at zero every sample stays at (0, 0), exactly. *)
Lemma equilibrium_binary64 :
  exists s : vars,
    modelo_dbo_app 0 0 = Ok s
    /\ length (trajectory s) = 301%nat
    /\ all_zero (C1_list s) = true
    /\ all_zero (C2_list s) = true.
Proof.
  exists (final (@modelo_dbo_app ArithFloat 0 0)).
  split; [apply ok_final; vm_compute; reflexivity|].
  repeat match goal with |- _ /\ _ => split end; vm_compute; reflexivity.
Qed.

(** The closed system keeps its mass within the tolerance of the
    specification over the 300 steps, from (C1, C2) = (5, 0). *)
Lemma mass_binary64 :
  let r := @runge_kutta_4 ArithFloat aislado64 0x1.999999999999ap-4 300 5 0 in
  is_ok r = true
  /\ length (trajectory (final r)) = 301%nat
  /\ mass_within_tolerance aislado64 500000 (trajectory (final r)) = true.
Proof.
  cbv zeta.
  repeat match goal with |- _ /\ _ => split end; vm_compute; reflexivity.
Qed.

End Binary64.

(** ** The time grid is taken as given *)


(** ** Further properties of the loop, in every arithmetic *)

Section Runs.
Context {R : Arith}.
Local Open Scope py_scope.

Lemma volumes_dec (p : params) : volumes_ok p \/ ~ volumes_ok p.
Proof.
  unfold volumes_ok.
  destruct (is_zero (V1 p)); [right; intros [H _]; discriminate|].
  destruct (is_zero (V2 p)); [right; intros [_ H]; discriminate|].
  left. split; reflexivity.
Qed.

Lemma derivadas_raises (p : params) (c1 c2 tm : num) :
  ~ volumes_ok p -> derivadas p c1 c2 tm = Raise ZeroDivisionError.
Proof.
  unfold volumes_ok, derivadas, pydiv. intros H.
  destruct (is_zero (V1 p)); [reflexivity|]. cbn [bind].
  destruct (is_zero (V2 p)); [reflexivity|]. exfalso. apply H. split; reflexivity.
Qed.

Lemma rk4_loop_raises (p : params) (dt : num) (n : nat) (s : vars) :
  ~ volumes_ok p -> rk4_loop p dt (S n) s = Raise ZeroDivisionError.
Proof.
  intros H. cbn [rk4_loop]. unfold rk4_body.
  rewrite (derivadas_raises p _ _ _ H). reflexivity.
Qed.

(** What one returned iteration did. *)
Lemma rk4_body_inv (p : params) (dt : num) (s s' : vars) :
  rk4_body p dt s = Ok s' ->
  actual s' = paso p dt (actual s)
  /\ t_list s' = t_list s ++ [t s']
  /\ C1_list s' = C1_list s ++ [C1 s']
  /\ C2_list s' = C2_list s ++ [C2 s'].
Proof.
  intros E. pose proof (rk4_body_returns _ _ _ _ E) as Hv.
  destruct (rk4_body_ok p dt s Hv) as (s1 & E1 & H).
  rewrite E in E1. injection E1 as <-. exact H.
Qed.

Lemma rk4_body_tiempo (p : params) (dt : num) (s s' : vars) :
  rk4_body p dt s = Ok s' -> t s' = t s + dt.
Proof.
  intros E. destruct (rk4_body_inv _ _ _ _ E) as (Ha & _).
  change (t s') with (tiempo (actual s')). rewrite Ha. reflexivity.
Qed.

Lemma rk4_loop_lockstep (p : params) (dt : num) (n : nat) :
  forall s s' : vars,
    rk4_loop p dt n s = Ok s' ->
    ends_with_current s ->
    ends_with_current s'
    /\ length (t_list s') = (length (t_list s) + n)%nat
    /\ length (C1_list s') = (length (C1_list s) + n)%nat
    /\ length (C2_list s') = (length (C2_list s) + n)%nat.
Proof.
  induction n as [|n IH]; intros s s' E Hs.
  - cbn in E. injection E as <-. rewrite !Nat.add_0_r. auto.
  - cbn [rk4_loop] in E. destruct (rk4_body p dt s) as [s1|e] eqn:E1; [|discriminate].
    cbn [bind] in E. destruct (rk4_body_inv _ _ _ _ E1) as (_ & Ht & H1 & H2).
    assert (Hs1 : ends_with_current s1).
    { intros d. rewrite Ht, H1, H2, !last_last. auto. }
    destruct (IH s1 s' E Hs1) as (Hs' & Lt & L1 & L2).
    split; [exact Hs'|]. rewrite Lt, L1, L2, Ht, H1, H2, !length_app. cbn [length].
    repeat split; lia.
Qed.

Lemma orbit_app (p : params) (dt : num) (n m : nat) (x : sample) :
  orbit p dt (n + m) x
  = orbit p dt n x ++ orbit p dt m (Nat.iter n (paso p dt) x).
Proof.
  revert x. induction n as [|n IH]; intros x; [reflexivity|].
  cbn [Nat.add orbit app]. rewrite IH, Nat.iter_succ_r. reflexivity.
Qed.

Lemma orbit_times_only (p p' : params) (dt : num) (n : nat) (x x' : sample) :
  tiempo x = tiempo x' ->
  map tiempo (orbit p dt n x) = map tiempo (orbit p' dt n x').
Proof.
  revert x x'. induction n as [|n IH]; intros x x' H; [reflexivity|].
  assert (H' : tiempo (paso p dt x) = tiempo (paso p' dt x')).
  { destruct x as [[a b] c], x' as [[a' b'] c']. cbn in H. subst a'. reflexivity. }
  cbn [orbit map]. rewrite H'. f_equal. now apply IH.
Qed.

(** The time list of a returned run. *)
Lemma runge_kutta_4_t_list (p : params) (dt : num) (N : Z) (c1 c2 : num) (s : vars) :
  runge_kutta_4 p dt N c1 c2 = Ok s ->
  t_list s = of_int 0 :: map tiempo (orbit p dt (Z.to_nat N) (of_int 0, c1, c2)).
Proof.
  unfold runge_kutta_4. destruct (Z.to_nat N) as [|n] eqn:En.
  - cbn. intros [= <-]. reflexivity.
  - intros E. pose proof (rk4_loop_returns _ _ _ _ _ E) as Hv.
    destruct (rk4_loop_ok p dt (S n) Hv (init c1 c2)) as (s' & E' & Ht & _).
    rewrite E in E'. injection E' as <-. exact Ht.
Qed.

(** X1. A run returns exactly when it has no step to make or both volumes
    are nonzero: with N <= 0 it returns the initial variables untouched,
    with nonzero volumes it returns for every N, and with a zero volume
    and N > 0 the first call of [derivadas] raises ZeroDivisionError, as
    every call of [derivadas] does. *)
Theorem runge_kutta_4_returns_iff (p : params) (dt : num) (N : Z) (c1 c2 : num) :
  ((N <= 0)%Z -> runge_kutta_4 p dt N c1 c2 = Ok (init c1 c2))
  /\ (volumes_ok p -> exists s : vars, runge_kutta_4 p dt N c1 c2 = Ok s)
  /\ ((0 < N)%Z -> ~ volumes_ok p ->
      runge_kutta_4 p dt N c1 c2 = Raise ZeroDivisionError)
  /\ (forall tm : num, ~ volumes_ok p ->
      derivadas p c1 c2 tm = Raise ZeroDivisionError).
Proof.
  split; [|split; [|split]].
  - apply runge_kutta_4_no_steps.
  - apply runge_kutta_4_ok.
  - intros HN Hv. unfold runge_kutta_4.
    destruct (Z.to_nat N) as [|n] eqn:En; [lia|].
    now apply rk4_loop_raises.
  - intros tm Hv. now apply derivadas_raises.
Qed.

(** X2. In a returned run the three lists have the same length, one more
    than the number of steps made, and each ends with the final value of
    its loop variable: the pair of lists handed to the plot always match. *)
Theorem lists_in_lockstep (p : params) (dt : num) (N : Z) (c1 c2 : num) (s : vars) :
  runge_kutta_4 p dt N c1 c2 = Ok s ->
  length (t_list s) = S (Z.to_nat N)
  /\ length (C1_list s) = S (Z.to_nat N)
  /\ length (C2_list s) = S (Z.to_nat N)
  /\ forall d : num,
      last (t_list s) d = t s /\ last (C1_list s) d = C1 s /\ last (C2_list s) d = C2 s.
Proof.
  unfold runge_kutta_4. intros E.
  assert (H0 : ends_with_current (init c1 c2)) by (intros d; cbn; auto).
  destruct (rk4_loop_lockstep p dt (Z.to_nat N) _ _ E H0) as (Hs & Lt & L1 & L2).
  cbn in Lt, L1, L2. auto.
Qed.


(** X4. A longer horizon does not change the earlier samples: if the run
    of N' steps returns, the run of N <= N' steps returns too, and its
    trajectory is the first N+1 samples of the longer one. *)
Theorem horizon_extension (p : params) (dt : num) (N N' : Z) (c1 c2 : num) (s' : vars) :
  (N <= N')%Z ->
  runge_kutta_4 p dt N' c1 c2 = Ok s' ->
  exists s : vars,
    runge_kutta_4 p dt N c1 c2 = Ok s
    /\ trajectory s = firstn (S (Z.to_nat N)) (trajectory s').
Proof.
  intros HN E'.
  assert (Es : exists s, runge_kutta_4 p dt N c1 c2 = Ok s).
  { destruct (Z.to_nat N) as [|n] eqn:En.
    - exists (init c1 c2). apply runge_kutta_4_no_steps. lia.
    - apply runge_kutta_4_ok. unfold runge_kutta_4 in E'.
      destruct (Z.to_nat N') as [|n'] eqn:En'; [lia|].
      exact (rk4_loop_returns _ _ _ _ _ E'). }
  destruct Es as [s E]. exists s. split; [exact E|].
  rewrite (runge_kutta_4_trajectory _ _ _ _ _ _ E),
          (runge_kutta_4_trajectory _ _ _ _ _ _ E').
  replace (Z.to_nat N') with (Z.to_nat N + (Z.to_nat N' - Z.to_nat N))%nat by lia.
  rewrite orbit_app. cbn [firstn]. f_equal.
  rewrite firstn_app, orbit_length, Nat.sub_diag. cbn [firstn].
  rewrite app_nil_r. symmetry. apply firstn_all2. now rewrite orbit_length.
Qed.

(** X5. The times of a trajectory depend on dt and N alone: two returned
    runs with the same dt and N have the same time list, whatever their
    parameters, slider values and initial concentrations. *)
Theorem times_independent_of_inputs (p p' : params) (dt : num) (N : Z)
    (c1 c2 c1' c2' : num) (s s' : vars) :
  runge_kutta_4 p dt N c1 c2 = Ok s ->
  runge_kutta_4 p' dt N c1' c2' = Ok s' ->
  t_list s = t_list s'.
Proof.
  intros E E'.
  rewrite (runge_kutta_4_t_list _ _ _ _ _ _ E), (runge_kutta_4_t_list _ _ _ _ _ _ E').
  f_equal. now apply orbit_times_only.
Qed.

End Runs.

(** ** Further properties in exact arithmetic *)

Section ExactRuns.
#[local] Existing Instance ArithQ.
Local Open Scope Q_scope.

Ltac q_arith :=
  cbn [num of_int add sub mul div ltb is_zero to_int ArithQ] in *.

(** *** Stationary states *)

Lemma stationary_volumes (p : @params ArithQ) (c1 c2 : Q) :
  stationary p c1 c2 -> volumes_ok p.
Proof.
  intros H. destruct (H 0) as (d1 & d2 & E & _).
  exact (derivadas_returns _ _ _ _ _ E).
Qed.

Lemma stationary_rates (p : @params ArithQ) (c1 c2 x1 x2 tm : Q) :
  stationary p c1 c2 -> x1 == c1 -> x2 == c2 ->
  dC1_dt p x1 x2 tm == 0 /\ dC2_dt p x1 x2 == 0.
Proof.
  intros H H1 H2. pose proof (stationary_volumes _ _ _ H) as Hv.
  destruct (H tm) as (d1 & d2 & E & Z1 & Z2).
  rewrite (derivadas_ok p c1 c2 tm Hv) in E. injection E as <- <-.
  rewrite (dC1_dt_compat p tm _ _ _ _ H1 H2), (dC2_dt_compat p _ _ _ _ H1 H2). auto.
Qed.

Lemma paso_stationary (p : @params ArithQ) (dt c1 c2 : Q) (x : sample) :
  stationary p c1 c2 -> holds c1 c2 x -> holds c1 c2 (paso p dt x).
Proof.
  intros Hs. destruct x as [[tm x1] x2]. unfold holds, conc1, conc2.
  cbn [fst snd]. intros [H1 H2].
  destruct (paso_stages p dt tm x1 x2)
    as (a1 & a2 & b1 & b2 & g1 & g2 & e1 & e2 & -> & Ha1 & Ha2 & Hb1 & Hb2 & Hg1 & Hg2 & He1 & He2).
  assert (Ea : a1 == 0 /\ a2 == 0)
    by (rewrite Ha1, Ha2; now apply (stationary_rates p c1 c2 _ _ tm Hs)).
  destruct Ea as [Ea1 Ea2].
  assert (Eb : b1 == 0 /\ b2 == 0)
    by (rewrite Hb1, Hb2; apply (stationary_rates p c1 c2 _ _ _ Hs);
        rewrite ?H1, ?H2, ?Ea1, ?Ea2; unfold Qdiv; ring).
  destruct Eb as [Eb1 Eb2].
  assert (Eg : g1 == 0 /\ g2 == 0)
    by (rewrite Hg1, Hg2; apply (stationary_rates p c1 c2 _ _ _ Hs);
        rewrite ?H1, ?H2, ?Eb1, ?Eb2; unfold Qdiv; ring).
  destruct Eg as [Eg1 Eg2].
  assert (Ee : e1 == 0 /\ e2 == 0)
    by (rewrite He1, He2; apply (stationary_rates p c1 c2 _ _ _ Hs);
        rewrite ?H1, ?H2, ?Eg1, ?Eg2; ring).
  destruct Ee as [Ee1 Ee2].
  cbn [fst snd].
  rewrite H1, H2, Ea1, Ea2, Eb1, Eb2, Eg1, Eg2, Ee1, Ee2. unfold Qdiv.
  split; ring.
Qed.

Lemma orbit_stationary (p : @params ArithQ) (dt c1 c2 : Q) (n : nat) (x : sample) :
  stationary p c1 c2 -> holds c1 c2 x -> Forall (holds c1 c2) (orbit p dt n x).
Proof.
  intros Hs. revert x. induction n as [|n IH]; intros x Hx; cbn [orbit].
  - constructor.
  - pose proof (paso_stationary p dt c1 c2 x Hs Hx) as Hx'.
    constructor; [exact Hx'|]. now apply IH.
Qed.

Lemma stationary_run (p : @params ArithQ) (dt c1 c2 : Q) (N : Z) :
  stationary p c1 c2 ->
  exists s : vars,
    runge_kutta_4 p dt N c1 c2 = Ok s
    /\ Forall (holds c1 c2) (trajectory s).
Proof.
  intros Hs. pose proof (stationary_volumes _ _ _ Hs) as Hv.
  destruct (runge_kutta_4_ok p dt N c1 c2 Hv) as [s E].
  exists s. split; [exact E|].
  rewrite (runge_kutta_4_trajectory _ _ _ _ _ _ E).
  assert (H0 : holds c1 c2 (0, c1, c2)) by (split; reflexivity).
  constructor; [exact H0|].
  exact (orbit_stationary p dt c1 c2 (Z.to_nat N) _ Hs H0).
Qed.

Lemma isolated_stationary (p : @params ArithQ) (c1 c2 : Q) :
  volumes_ok p -> isolated p -> stationary p c1 c2.
Proof.
  intros Hv (Hk1 & Hk2 & HD1 & HD2 & HL) tm.
  rewrite (derivadas_ok p c1 c2 tm Hv). do 2 eexists. split; [reflexivity|].
  unfold dC1_dt, dC2_dt. q_arith.
  rewrite (carga_zero p tm HL), Hk1, Hk2, HD1, HD2. unfold inject_Z, Qdiv.
  split; ring.
Qed.

Lemma boundary_stationary (p : @params ArithQ) (c1 c2 : Q) :
  volumes_ok p -> k1 p == 0 -> k2 p == 0 -> L_input p == 0 ->
  c1 == CB p -> c2 == CB p -> stationary p c1 c2.
Proof.
  intros Hv Hk1 Hk2 HL H1 H2 tm.
  rewrite (derivadas_ok p c1 c2 tm Hv). do 2 eexists. split; [reflexivity|].
  unfold dC1_dt, dC2_dt. q_arith.
  rewrite (carga_zero p tm HL), Hk1, Hk2, H1, H2. unfold inject_Z, Qdiv.
  split; ring.
Qed.

(** X6. A state at which [derivadas] returns zero rates at every time is
    kept by the whole run: the run returns and every sample holds the
    initial concentrations. *)
Theorem stationary_state_kept (p : @params ArithQ) (dt c1 c2 : Q) (N : Z) :
  stationary p c1 c2 ->
  exists s : vars,
    runge_kutta_4 p dt N c1 c2 = Ok s
    /\ length (trajectory s) = S (Z.to_nat N)
    /\ Forall (fun x => conc1 x == c1 /\ conc2 x == c2) (trajectory s).
Proof.
  intros Hs. destruct (stationary_run p dt c1 c2 N Hs) as (s & E & H).
  exists s. split; [exact E|]. split; [|exact H].
  rewrite (runge_kutta_4_trajectory _ _ _ _ _ _ E).
  exact (f_equal S (orbit_length _ _ _ _)).
Qed.

(** X7. Fully isolated reservoirs (k1 = k2 = 0, D1B = D12 = 0,
    L_input = 0) keep both concentrations at their initial values in every
    sample, for any initial state, step size and number of steps. *)
Theorem isolated_reservoirs_constant (p : @params ArithQ) (dt c1 c2 : Q) (N : Z) :
  volumes_ok p -> isolated p ->
  exists s : vars,
    runge_kutta_4 p dt N c1 c2 = Ok s
    /\ Forall (fun x => conc1 x == c1 /\ conc2 x == c2) (trajectory s).
Proof.
  intros Hv Hi. exact (stationary_run p dt c1 c2 N (isolated_stationary p c1 c2 Hv Hi)).
Qed.

(** X8. Without decay and without source (k1 = k2 = 0, L_input = 0) the
    boundary concentration is an equilibrium: started at C1 = C2 = CB,
    every sample stays at (CB, CB), whatever the two conductances. *)
Theorem boundary_equilibrium (p : @params ArithQ) (dt : Q) (N : Z) :
  volumes_ok p -> k1 p == 0 -> k2 p == 0 -> L_input p == 0 ->
  exists s : vars,
    runge_kutta_4 p dt N (CB p) (CB p) = Ok s
    /\ Forall (fun x => conc1 x == CB p /\ conc2 x == CB p) (trajectory s).
Proof.
  intros Hv Hk1 Hk2 HL.
  apply stationary_run. apply boundary_stationary; auto; reflexivity.
Qed.

(** *** Superposition *)

Lemma dC1_dt_linear (p : @params ArithQ) (a b L B L' B' x1 x2 y1 y2 z1 z2 tm : Q) :
  x1 == a * y1 + b * z1 -> x2 == a * y2 + b * z2 ->
  dC1_dt (con_entradas p (a * L + b * L') (a * B + b * B')) x1 x2 tm
  == a * dC1_dt (con_entradas p L B) y1 y2 tm
     + b * dC1_dt (con_entradas p L' B') z1 z2 tm.
Proof.
  intros H1 H2. unfold dC1_dt, carga. cbn. rewrite H1, H2.
  destruct (Qltb tm (t_descarga p)); unfold Qdiv; ring.
Qed.

Lemma dC2_dt_linear (p : @params ArithQ) (a b L B L' B' x1 x2 y1 y2 z1 z2 : Q) :
  x1 == a * y1 + b * z1 -> x2 == a * y2 + b * z2 ->
  dC2_dt (con_entradas p (a * L + b * L') (a * B + b * B')) x1 x2
  == a * dC2_dt (con_entradas p L B) y1 y2
     + b * dC2_dt (con_entradas p L' B') z1 z2.
Proof.
  intros H1 H2. unfold dC2_dt. cbn. rewrite H1, H2. unfold Qdiv. ring.
Qed.

Lemma paso_linear (p : @params ArithQ) (dt a b L B L' B' : Q) (x y z : sample) :
  combines a b x y z ->
  combines a b (paso (con_entradas p (a * L + b * L') (a * B + b * B')) dt x)
               (paso (con_entradas p L B) dt y)
               (paso (con_entradas p L' B') dt z).
Proof.
  destruct x as [[tm x1] x2], y as [[ty y1] y2], z as [[tz z1] z2].
  unfold combines, tiempo, conc1, conc2. cbn [fst snd].
  intros (-> & -> & H1 & H2).
  destruct (paso_stages (con_entradas p (a * L + b * L') (a * B + b * B')) dt tm x1 x2)
    as (a1 & a2 & b1 & b2 & g1 & g2 & e1 & e2 & -> & Ha1 & Ha2 & Hb1 & Hb2 & Hg1 & Hg2 & He1 & He2).
  destruct (paso_stages (con_entradas p L B) dt tm y1 y2)
    as (u1 & u2 & v1 & v2 & w1 & w2 & r1 & r2 & -> & Hu1 & Hu2 & Hv1 & Hv2 & Hw1 & Hw2 & Hr1 & Hr2).
  destruct (paso_stages (con_entradas p L' B') dt tm z1 z2)
    as (u1' & u2' & v1' & v2' & w1' & w2' & r1' & r2' & -> & Hu1' & Hu2' & Hv1' & Hv2' & Hw1' & Hw2' & Hr1' & Hr2').
  assert (Ea1 : a1 == a * u1 + b * u1')
    by (rewrite Ha1, Hu1, Hu1'; now apply dC1_dt_linear).
  assert (Ea2 : a2 == a * u2 + b * u2')
    by (rewrite Ha2, Hu2, Hu2'; now apply dC2_dt_linear).
  assert (Eb1 : b1 == a * v1 + b * v1')
    by (rewrite Hb1, Hv1, Hv1'; apply dC1_dt_linear;
        rewrite ?H1, ?H2, ?Ea1, ?Ea2; unfold Qdiv; ring).
  assert (Eb2 : b2 == a * v2 + b * v2')
    by (rewrite Hb2, Hv2, Hv2'; apply dC2_dt_linear;
        rewrite ?H1, ?H2, ?Ea1, ?Ea2; unfold Qdiv; ring).
  assert (Eg1 : g1 == a * w1 + b * w1')
    by (rewrite Hg1, Hw1, Hw1'; apply dC1_dt_linear;
        rewrite ?H1, ?H2, ?Eb1, ?Eb2; unfold Qdiv; ring).
  assert (Eg2 : g2 == a * w2 + b * w2')
    by (rewrite Hg2, Hw2, Hw2'; apply dC2_dt_linear;
        rewrite ?H1, ?H2, ?Eb1, ?Eb2; unfold Qdiv; ring).
  assert (Ee1 : e1 == a * r1 + b * r1')
    by (rewrite He1, Hr1, Hr1'; apply dC1_dt_linear;
        rewrite ?H1, ?H2, ?Eg1, ?Eg2; ring).
  assert (Ee2 : e2 == a * r2 + b * r2')
    by (rewrite He2, Hr2, Hr2'; apply dC2_dt_linear;
        rewrite ?H1, ?H2, ?Eg1, ?Eg2; ring).
  cbn [fst snd]. split; [reflexivity|]. split; [reflexivity|].
  rewrite H1, H2, Ea1, Ea2, Eb1, Eb2, Eg1, Eg2, Ee1, Ee2. unfold Qdiv.
  split; ring.
Qed.

Lemma orbit_linear (p : @params ArithQ) (dt a b L B L' B' : Q) (n : nat) :
  forall (x y z d : sample) (i : nat),
    combines a b x y z -> (i <= n)%nat ->
    combines a b
      (nth i (x :: orbit (con_entradas p (a * L + b * L') (a * B + b * B')) dt n x) d)
      (nth i (y :: orbit (con_entradas p L B) dt n y) d)
      (nth i (z :: orbit (con_entradas p L' B') dt n z) d).
Proof.
  induction n as [|n IH]; intros x y z d i H Hi.
  - replace i with O by lia. exact H.
  - destruct i as [|i]; [exact H|]. cbn [orbit nth].
    apply IH; [|lia]. now apply paso_linear.
Qed.

(** X9. Superposition: the trajectory is linear in the pair of slider
    values and the initial state taken together.  The run for the inputs
    (a L + b L', a CB + b CB') from the state a (C1, C2) + b (C1', C2')
    is, sample by sample, a times the run for (L, CB) from (C1, C2) plus
    b times the run for (L', CB') from (C1', C2'). *)
Theorem superposition (p : @params ArithQ) (dt a b L B L' B' c1 c2 c1' c2' : Q) (N : Z) :
  volumes_ok p ->
  exists s s1 s2 : vars,
    runge_kutta_4 (con_entradas p (a * L + b * L') (a * B + b * B')) dt N
                  (a * c1 + b * c1') (a * c2 + b * c2') = Ok s
    /\ runge_kutta_4 (con_entradas p L B) dt N c1 c2 = Ok s1
    /\ runge_kutta_4 (con_entradas p L' B') dt N c1' c2' = Ok s2
    /\ forall (i : nat) (d : sample),
        (i <= Z.to_nat N)%nat ->
        conc1 (nth i (trajectory s) d)
        == a * conc1 (nth i (trajectory s1) d) + b * conc1 (nth i (trajectory s2) d)
        /\ conc2 (nth i (trajectory s) d)
           == a * conc2 (nth i (trajectory s1) d) + b * conc2 (nth i (trajectory s2) d).
Proof.
  intros Hv.
  destruct (runge_kutta_4_ok (con_entradas p (a * L + b * L') (a * B + b * B')) dt N
              (a * c1 + b * c1') (a * c2 + b * c2') Hv) as [s E].
  destruct (runge_kutta_4_ok (con_entradas p L B) dt N c1 c2 Hv) as [s1 E1].
  destruct (runge_kutta_4_ok (con_entradas p L' B') dt N c1' c2' Hv) as [s2 E2].
  exists s, s1, s2. repeat (split; [assumption|]).
  intros i d Hi.
  rewrite (runge_kutta_4_trajectory _ _ _ _ _ _ E),
          (runge_kutta_4_trajectory _ _ _ _ _ _ E1),
          (runge_kutta_4_trajectory _ _ _ _ _ _ E2).
  assert (H0 : combines a b (0, a * c1 + b * c1', a * c2 + b * c2') (0, c1, c2) (0, c1', c2'))
    by (repeat split; reflexivity).
  destruct (orbit_linear p dt a b L B L' B' (Z.to_nat N) _ _ _ d i H0 Hi)
    as (_ & _ & K1 & K2).
  split; assumption.
Qed.

(** *** A horizon that is not a multiple of the step *)



(** *** After the discharge *)

Lemma derivadas_after (p : @params ArithQ) (c1 c2 tm : Q) :
  t_descarga p <= tm ->
  derivadas p c1 c2 tm = derivadas (sin_carga p) c1 c2 tm.
Proof.
  intros H. apply Qltb_false in H. unfold derivadas. cbn. rewrite H. reflexivity.
Qed.

Lemma later_half (td tm dt : Q) : td <= tm -> 0 <= dt -> td <= tm + dt / inject_Z 2.
Proof.
  intros H Hd. setoid_replace td with (td + 0) by ring.
  apply Qplus_le_compat; [exact H|].
  apply Qle_shift_div_l; [reflexivity|]. now rewrite Qmult_0_l.
Qed.

Lemma later_full (td tm dt : Q) : td <= tm -> 0 <= dt -> td <= tm + dt.
Proof.
  intros H Hd. setoid_replace td with (td + 0) by ring.
  now apply Qplus_le_compat.
Qed.

Lemma rk4_body_after (p : @params ArithQ) (dt : Q) (s : vars) :
  t_descarga p <= t s -> 0 <= dt ->
  rk4_body p dt s = rk4_body (sin_carga p) dt s.
Proof.
  intros H Hd. unfold rk4_body. q_arith.
  rewrite (derivadas_after p _ _ _ H).
  destruct (derivadas (sin_carga p) (C1 s) (C2 s) (t s)) as [[a1 a2]|e];
    cbn [bind]; [|reflexivity].
  rewrite (derivadas_after p _ _ _ (later_half _ _ _ H Hd)).
  destruct (derivadas (sin_carga p) (C1 s + dt * a1 / inject_Z 2)
              (C2 s + dt * a2 / inject_Z 2) (t s + dt / inject_Z 2)) as [[b1 b2]|e];
    cbn [bind]; [|reflexivity].
  rewrite (derivadas_after p _ _ _ (later_half _ _ _ H Hd)).
  destruct (derivadas (sin_carga p) (C1 s + dt * b1 / inject_Z 2)
              (C2 s + dt * b2 / inject_Z 2) (t s + dt / inject_Z 2)) as [[g1 g2]|e];
    cbn [bind]; [|reflexivity].
  rewrite (derivadas_after p _ _ _ (later_full _ _ _ H Hd)).
  reflexivity.
Qed.

(** X11. Once the time of the loop has reached t_descarga, and dt >= 0,
    the rest of the run is that of the model with the source removed:
    the remaining iterations return the same variables (or raise the same
    exception) as with L_input = 0. *)
Theorem source_free_after_discharge (p : @params ArithQ) (dt : Q) (n : nat) (s : vars) :
  t_descarga p <= t s -> 0 <= dt ->
  rk4_loop p dt n s = rk4_loop (sin_carga p) dt n s.
Proof.
  intros H Hd. revert s H. induction n as [|n IH]; intros s H; [reflexivity|].
  cbn [rk4_loop]. rewrite (rk4_body_after p dt s H Hd).
  destruct (rk4_body (sin_carga p) dt s) as [s1|e] eqn:E; cbn [bind]; [|reflexivity].
  apply IH. rewrite (rk4_body_tiempo _ _ _ _ E). now apply later_full.
Qed.



(** *** Bounds on the concentrations of the script *)

Lemma eq_Qeq (x y : Q) : x = y -> x == y.
Proof. intros ->. reflexivity. Qed.

(** The script's constants as plain rationals, for linear arithmetic. *)
Ltac script_constants :=
  cbn [V1 V2 D1B D12 CB k1 k2 parametros Fijos.V1 Fijos.V2 Fijos.k1 Fijos.k2
       lit of_int div num add sub mul ArithQ] in *;
  unfold inject_Z, Qdiv in *; cbn [Qinv Qnum Qden] in *.

Lemma carga_bounds (p : @params ArithQ) (tm : Q) :
  0 <= L_input p -> 0 <= carga p tm /\ carga p tm <= L_input p.
Proof.
  intros H. unfold carga. q_arith. destruct (Qltb tm (t_descarga p)).
  - split; [exact H|apply Qle_refl].
  - split; [apply Qle_refl|exact H].
Qed.

(** One step with the script's constants is linear in the state, the
    boundary concentration and the three source values it reads, with
    fixed rational coefficients; the bounds are linear arithmetic. *)
Lemma paso_bounds (Li Bi : Q) (tm c1 c2 : @num ArithQ) :
  0 <= Li -> 0 <= Bi ->
  within (Bi + Li / 16200) (tm, c1, c2) ->
  within (Bi + Li / 16200)
    (paso (@parametros ArithQ Li Bi (12960000 # 800) (6220800 # 1200)) (1 # 10)
          (tm, c1, c2)).
Proof.
  intros HL HB [[H1 H1'] [H2 H2']].
  set (p := @parametros ArithQ Li Bi (12960000 # 800) (6220800 # 1200)).
  assert (HLp : 0 <= L_input p) by exact HL.
  destruct (carga_bounds p tm HLp) as [Ha Ha'].
  destruct (carga_bounds p (tm + (1 # 10) / 2) HLp) as [Hb Hb'].
  destruct (carga_bounds p (tm + (1 # 10)) HLp) as [Hd Hd'].
  change (L_input p) with Li in Ha', Hb', Hd'.
  destruct (paso_stages p (1 # 10) tm c1 c2)
    as (a1 & a2 & b1 & b2 & g1 & g2 & e1 & e2 & -> & Ea1 & Ea2 & Eb1 & Eb2 & Eg1 & Eg2 & Ee1 & Ee2).
  apply eq_Qeq in Ea1, Ea2, Eb1, Eb2, Eg1, Eg2, Ee1, Ee2.
  unfold within, conc1, conc2, dC1_dt, dC2_dt in *. cbn [fst snd] in *.
  revert Ha Ha' Hb Hb' Hd Hd' Ea1 Eb1 Eg1 Ee1.
  generalize (carga p tm) (carga p (tm + (1 # 10) / 2)) (carga p (tm + (1 # 10))).
  intros la lb ld Ha Ha' Hb Hb' Hd Hd' Ea1 Eb1 Eg1 Ee1.
  subst p. script_constants.
  repeat split; lra.
Qed.

Lemma orbit_bounds (Li Bi : Q) (n : nat) (x : sample) :
  0 <= Li -> 0 <= Bi ->
  within (Bi + Li / 16200) x ->
  Forall (within (Bi + Li / 16200))
    (orbit (@parametros ArithQ Li Bi (12960000 # 800) (6220800 # 1200)) (1 # 10) n x).
Proof.
  intros HL HB. revert x. induction n as [|n IH]; intros x Hx; cbn [orbit].
  - constructor.
  - assert (Hx' : within (Bi + Li / 16200)
             (paso (@parametros ArithQ Li Bi (12960000 # 800) (6220800 # 1200)) (1 # 10) x))
      by (destruct x as [[tm c1] c2]; now apply paso_bounds).
    constructor; [exact Hx'|]. now apply IH.
Qed.

(** X15. For non-negative slider values the script's concentrations never
    become negative and never exceed CB + L_input/D1B (D1B = 16200): every
    one of the 301 samples has 0 <= C1, C2 <= CB + L_input/16200, in exact
    arithmetic. *)
Theorem concentrations_bounded (Li Bi : Q) :
  0 <= Li -> 0 <= Bi ->
  exists s : vars,
    modelo_dbo_app Li Bi = Ok s
    /\ length (trajectory s) = 301%nat
    /\ Forall (fun x => 0 <= conc1 x <= Bi + Li / 16200
                        /\ 0 <= conc2 x <= Bi + Li / 16200)
              (trajectory s).
Proof.
  intros HL HB. destruct (modelo_dbo_app_grid Li Bi) as (s & E & Hl & _).
  exists s. split; [exact E|]. split; [exact Hl|].
  rewrite modelo_dbo_app_Q in E.
  rewrite (runge_kutta_4_trajectory _ _ _ _ _ _ E).
  assert (H0 : within (Bi + Li / 16200) (0, 0, 0)).
  { assert (HM : 0 <= Bi + Li / 16200).
    { setoid_replace 0 with (0 + 0) by ring. apply Qplus_le_compat; [exact HB|].
      apply Qle_shift_div_l; [reflexivity|]. now rewrite Qmult_0_l. }
    repeat split; try exact HM; apply Qle_refl. }
  constructor; [exact H0|].
  exact (orbit_bounds Li Bi (Z.to_nat 300) (0, 0, 0) HL HB H0).
Qed.

Lemma carga_monotone (p p' : @params ArithQ) (tm : Q) :
  t_descarga p = t_descarga p' -> L_input p <= L_input p' ->
  carga p tm <= carga p' tm.
Proof.
  intros Ht H. unfold carga. rewrite <- Ht. q_arith.
  destruct (Qltb tm (t_descarga p)); [exact H|apply Qle_refl].
Qed.

Lemma paso_monotone (Li Li' Bi Bi' : Q) (tm c1 c2 c1' c2' : @num ArithQ) :
  Li <= Li' -> Bi <= Bi' -> c1 <= c1' -> c2 <= c2' ->
  below
    (paso (@parametros ArithQ Li Bi (12960000 # 800) (6220800 # 1200)) (1 # 10)
          (tm, c1, c2))
    (paso (@parametros ArithQ Li' Bi' (12960000 # 800) (6220800 # 1200)) (1 # 10)
          (tm, c1', c2')).
Proof.
  intros HL HB H1 H2.
  set (p := @parametros ArithQ Li Bi (12960000 # 800) (6220800 # 1200)).
  set (p' := @parametros ArithQ Li' Bi' (12960000 # 800) (6220800 # 1200)).
  assert (Ht : t_descarga p = t_descarga p') by reflexivity.
  assert (HLp : L_input p <= L_input p') by exact HL.
  pose proof (carga_monotone p p' tm Ht HLp) as Ha.
  pose proof (carga_monotone p p' (tm + (1 # 10) / 2) Ht HLp) as Hb.
  pose proof (carga_monotone p p' (tm + (1 # 10)) Ht HLp) as Hd.
  destruct (paso_stages p (1 # 10) tm c1 c2)
    as (a1 & a2 & b1 & b2 & g1 & g2 & e1 & e2 & -> & Ea1 & Ea2 & Eb1 & Eb2 & Eg1 & Eg2 & Ee1 & Ee2).
  destruct (paso_stages p' (1 # 10) tm c1' c2')
    as (u1 & u2 & v1 & v2 & w1 & w2 & r1 & r2 & -> & Eu1 & Eu2 & Ev1 & Ev2 & Ew1 & Ew2 & Er1 & Er2).
  apply eq_Qeq in Ea1, Ea2, Eb1, Eb2, Eg1, Eg2, Ee1, Ee2,
                  Eu1, Eu2, Ev1, Ev2, Ew1, Ew2, Er1, Er2.
  unfold below, tiempo, conc1, conc2, dC1_dt, dC2_dt in *. cbn [fst snd] in *.
  split; [reflexivity|].
  revert Ha Hb Hd Ea1 Eb1 Eg1 Ee1 Eu1 Ev1 Ew1 Er1.
  generalize (carga p tm) (carga p (tm + (1 # 10) / 2)) (carga p (tm + (1 # 10)))
             (carga p' tm) (carga p' (tm + (1 # 10) / 2)) (carga p' (tm + (1 # 10))).
  intros la lb ld la' lb' ld' Ha Hb Hd Ea1 Eb1 Eg1 Ee1 Eu1 Ev1 Ew1 Er1.
  subst p p'. script_constants.
  split; lra.
Qed.

Lemma orbit_monotone (Li Li' Bi Bi' : Q) (n : nat) :
  Li <= Li' -> Bi <= Bi' ->
  forall (x y d : sample) (i : nat),
    below x y -> (i <= n)%nat ->
    below
      (nth i (x :: orbit (@parametros ArithQ Li Bi (12960000 # 800) (6220800 # 1200))
                         (1 # 10) n x) d)
      (nth i (y :: orbit (@parametros ArithQ Li' Bi' (12960000 # 800) (6220800 # 1200))
                         (1 # 10) n y) d).
Proof.
  intros HL HB. induction n as [|n IH]; intros x y d i H Hi.
  - replace i with O by lia. exact H.
  - destruct i as [|i]; [exact H|]. cbn [orbit nth].
    apply IH; [|lia].
    destruct x as [[tm c1] c2], y as [[tm' c1'] c2'].
    destruct H as (Ht & H1 & H2). cbn in Ht. subst tm'.
    now apply paso_monotone.
Qed.

(** X16. The script is monotone in its two sliders: raising L_input or
    CB never lowers a concentration.  For L_input <= L_input' and
    CB <= CB', every sample of the first run has C1 and C2 at most those
    of the same sample of the second run, in exact arithmetic. *)
Theorem monotone_in_sliders (Li Li' Bi Bi' : Q) :
  Li <= Li' -> Bi <= Bi' ->
  exists s s' : vars,
    modelo_dbo_app Li Bi = Ok s
    /\ modelo_dbo_app Li' Bi' = Ok s'
    /\ forall (i : nat) (d : sample),
        (i <= 300)%nat ->
        conc1 (nth i (trajectory s) d) <= conc1 (nth i (trajectory s') d)
        /\ conc2 (nth i (trajectory s) d) <= conc2 (nth i (trajectory s') d).
Proof.
  intros HL HB.
  destruct (modelo_dbo_app_grid Li Bi) as (s & E & _).
  destruct (modelo_dbo_app_grid Li' Bi') as (s' & E' & _).
  exists s, s'. split; [exact E|]. split; [exact E'|].
  rewrite modelo_dbo_app_Q in E, E'. intros i d Hi.
  rewrite (runge_kutta_4_trajectory _ _ _ _ _ _ E),
          (runge_kutta_4_trajectory _ _ _ _ _ _ E').
  assert (H0 : below (0, 0, 0) (0, 0, 0))
    by (split; [reflexivity|split; apply Qle_refl]).
  destruct (orbit_monotone Li Li' Bi Bi' (Z.to_nat 300) HL HB _ _ d i H0 Hi)
    as (_ & K1 & K2).
  split; assumption.
Qed.

(** *** Concrete instances *)

Lemma runge_kutta_4_returns_iff_witness :
  (0 < 3)%Z /\ ~ volumes_ok sin_volumen
  /\ runge_kutta_4 sin_volumen (1 # 10) 3 0 0 = Raise ZeroDivisionError.
Proof.
  assert (HN : (0 < 3)%Z) by lia.
  assert (Hv : ~ volumes_ok sin_volumen) by (intros [H _]; discriminate H).
  exact (conj HN (conj Hv
    (proj1 (proj2 (proj2 (runge_kutta_4_returns_iff sin_volumen (1 # 10) 3 0 0))) HN Hv))).
Defined.

Lemma lists_in_lockstep_witness :
  runge_kutta_4 ejemplo (1 # 10) 2 0 0 = Ok dos_pasos
  /\ length (t_list dos_pasos) = 3%nat
  /\ length (C1_list dos_pasos) = 3%nat
  /\ length (C2_list dos_pasos) = 3%nat
  /\ forall d : Q,
      last (t_list dos_pasos) d = t dos_pasos
      /\ last (C1_list dos_pasos) d = C1 dos_pasos
      /\ last (C2_list dos_pasos) d = C2 dos_pasos.
Proof.
  assert (E : runge_kutta_4 ejemplo (1 # 10) 2 0 0 = Ok dos_pasos)
    by (unfold dos_pasos; apply ok_final; lazy; reflexivity).
  exact (conj E (lists_in_lockstep ejemplo (1 # 10) 2 0 0 dos_pasos E)).
Defined.

Lemma horizon_extension_witness :
  (1 <= 2)%Z /\ runge_kutta_4 ejemplo (1 # 10) 2 0 0 = Ok dos_pasos
  /\ exists s : vars,
      runge_kutta_4 ejemplo (1 # 10) 1 0 0 = Ok s
      /\ trajectory s = firstn 2 (trajectory dos_pasos).
Proof.
  assert (HN : (1 <= 2)%Z) by lia.
  assert (E : runge_kutta_4 ejemplo (1 # 10) 2 0 0 = Ok dos_pasos)
    by (unfold dos_pasos; apply ok_final; lazy; reflexivity).
  exact (conj HN (conj E (horizon_extension ejemplo (1 # 10) 1 2 0 0 dos_pasos HN E))).
Defined.

Lemma times_independent_of_inputs_witness :
  runge_kutta_4 ejemplo (1 # 10) 2 0 0 = Ok dos_pasos
  /\ runge_kutta_4 en_reposo (1 # 10) 2 5 7 = Ok dos_pasos_en_reposo
  /\ t_list dos_pasos = t_list dos_pasos_en_reposo.
Proof.
  assert (E : runge_kutta_4 ejemplo (1 # 10) 2 0 0 = Ok dos_pasos)
    by (unfold dos_pasos; apply ok_final; lazy; reflexivity).
  assert (E' : runge_kutta_4 en_reposo (1 # 10) 2 5 7 = Ok dos_pasos_en_reposo)
    by (unfold dos_pasos_en_reposo; apply ok_final; lazy; reflexivity).
  exact (conj E (conj E'
    (times_independent_of_inputs ejemplo en_reposo (1 # 10) 2 0 0 5 7
       dos_pasos dos_pasos_en_reposo E E'))).
Defined.

Lemma stationary_state_kept_witness :
  stationary sin_intercambio 3 7
  /\ exists s : vars,
      runge_kutta_4 sin_intercambio (1 # 10) 4 3 7 = Ok s
      /\ length (trajectory s) = 5%nat
      /\ Forall (fun x => conc1 x == 3 /\ conc2 x == 7) (trajectory s).
Proof.
  assert (Hs : stationary sin_intercambio 3 7).
  { intros tm. do 2 eexists. split; [reflexivity|]. cbn.
    destruct (Qltb tm 1); split; reflexivity. }
  exact (conj Hs (stationary_state_kept sin_intercambio (1 # 10) 3 7 4 Hs)).
Defined.

Lemma isolated_reservoirs_constant_witness :
  volumes_ok sin_intercambio /\ isolated sin_intercambio
  /\ exists s : vars,
      runge_kutta_4 sin_intercambio (1 # 10) 4 3 7 = Ok s
      /\ Forall (fun x => conc1 x == 3 /\ conc2 x == 7) (trajectory s).
Proof.
  assert (Hv : volumes_ok sin_intercambio) by (split; reflexivity).
  assert (Hi : isolated sin_intercambio) by (repeat split; reflexivity).
  exact (conj Hv (conj Hi
    (isolated_reservoirs_constant sin_intercambio (1 # 10) 3 7 4 Hv Hi))).
Defined.

Lemma boundary_equilibrium_witness :
  volumes_ok aislado /\ k1 aislado == 0 /\ k2 aislado == 0 /\ L_input aislado == 0
  /\ exists s : vars,
      runge_kutta_4 aislado (1 # 10) 4 (CB aislado) (CB aislado) = Ok s
      /\ Forall (fun x => conc1 x == CB aislado /\ conc2 x == CB aislado)
                (trajectory s).
Proof.
  assert (Hv : volumes_ok aislado) by (split; reflexivity).
  assert (H1 : k1 aislado == 0) by reflexivity.
  assert (H2 : k2 aislado == 0) by reflexivity.
  assert (HL : L_input aislado == 0) by reflexivity.
  exact (conj Hv (conj H1 (conj H2 (conj HL
    (boundary_equilibrium aislado (1 # 10) 4 Hv H1 H2 HL))))).
Defined.

Lemma superposition_witness :
  volumes_ok ejemplo
  /\ exists s s1 s2 : vars,
      runge_kutta_4 (con_entradas ejemplo (2 * 1000000 + 3 * 0) (2 * 1 + 3 * 4)) (1 # 10) 5
                    (2 * 0 + 3 * 1) (2 * 0 + 3 * 2) = Ok s
      /\ runge_kutta_4 (con_entradas ejemplo 1000000 1) (1 # 10) 5 0 0 = Ok s1
      /\ runge_kutta_4 (con_entradas ejemplo 0 4) (1 # 10) 5 1 2 = Ok s2
      /\ forall (i : nat) (d : sample),
          (i <= Z.to_nat 5)%nat ->
          conc1 (nth i (trajectory s) d)
          == 2 * conc1 (nth i (trajectory s1) d) + 3 * conc1 (nth i (trajectory s2) d)
          /\ conc2 (nth i (trajectory s) d)
             == 2 * conc2 (nth i (trajectory s1) d) + 3 * conc2 (nth i (trajectory s2) d).
Proof.
  assert (Hv : volumes_ok ejemplo) by (split; reflexivity).
  exact (conj Hv (superposition ejemplo (1 # 10) 2 3 1000000 1 0 4 0 0 1 2 5 Hv)).
Defined.


Lemma concentrations_bounded_witness :
  0 <= 1000000 /\ 0 <= 1
  /\ exists s : vars,
      modelo_dbo_app 1000000 1 = Ok s
      /\ length (trajectory s) = 301%nat
      /\ Forall (fun x => 0 <= conc1 x <= 1 + 1000000 / 16200
                          /\ 0 <= conc2 x <= 1 + 1000000 / 16200)
                (trajectory s).
Proof.
  assert (HL : 0 <= 1000000) by (apply Qle_bool_imp_le; reflexivity).
  assert (HB : 0 <= 1) by (apply Qle_bool_imp_le; reflexivity).
  exact (conj HL (conj HB (concentrations_bounded 1000000 1 HL HB))).
Defined.

Lemma monotone_in_sliders_witness :
  1000000 <= 2000000 /\ 1 <= 3
  /\ exists s s' : vars,
      modelo_dbo_app 1000000 1 = Ok s
      /\ modelo_dbo_app 2000000 3 = Ok s'
      /\ forall (i : nat) (d : sample),
          (i <= 300)%nat ->
          conc1 (nth i (trajectory s) d) <= conc1 (nth i (trajectory s') d)
          /\ conc2 (nth i (trajectory s) d) <= conc2 (nth i (trajectory s') d).
Proof.
  assert (HL : 1000000 <= 2000000) by (apply Qle_bool_imp_le; reflexivity).
  assert (HB : 1 <= 3) by (apply Qle_bool_imp_le; reflexivity).
  exact (conj HL (conj HB (monotone_in_sliders 1000000 2000000 1 3 HL HB))).
Defined.

Lemma source_free_after_discharge_witness :
  t_descarga ejemplo <= t tras_descarga /\ 0 <= 1 # 10
  /\ rk4_loop ejemplo (1 # 10) 3 tras_descarga
     = rk4_loop (sin_carga ejemplo) (1 # 10) 3 tras_descarga.
Proof.
  assert (H : t_descarga ejemplo <= t tras_descarga)
    by (apply Qle_bool_imp_le; reflexivity).
  assert (Hd : 0 <= 1 # 10) by (apply Qle_bool_imp_le; reflexivity).
  exact (conj H (conj Hd (source_free_after_discharge ejemplo (1 # 10) 3 tras_descarga H Hd))).
Defined.

End ExactRuns.

(** ** Further properties in binary64 *)

Section Binary64Runs.
#[local] Existing Instance ArithFloat.
Local Open Scope float_scope.

Lemma modelo_dbo_app_64 (Li Bi : float) :
  modelo_dbo_app Li Bi
  = runge_kutta_4 (parametros Li Bi 16200 5184) Fijos.dt 300 Fijos.C1 Fijos.C2.
Proof.
  unfold modelo_dbo_app.
  destruct conductances_binary64 as (-> & -> & ->). reflexivity.
Qed.

Lemma parametros_volumes_64 (Li Bi d1 d2 : float) :
  volumes_ok (parametros Li Bi d1 d2).
Proof. split; vm_compute; reflexivity. Qed.

Lemma t_list_64 (Li Bi : float) (s : vars) :
  modelo_dbo_app Li Bi = Ok s ->
  t_list s = t_list (final (@modelo_dbo_app ArithFloat 0 0)).
Proof.
  intros E.
  assert (E0 : @modelo_dbo_app ArithFloat 0 0
               = Ok (final (@modelo_dbo_app ArithFloat 0 0)))
    by (apply ok_final; vm_compute; reflexivity).
  set (s0 := final (@modelo_dbo_app ArithFloat 0 0)) in *. clearbody s0.
  rewrite modelo_dbo_app_64 in E, E0.
  rewrite (runge_kutta_4_t_list _ _ _ _ _ _ E), (runge_kutta_4_t_list _ _ _ _ _ _ E0).
  apply (f_equal (cons _)). apply orbit_times_only. reflexivity.
Qed.

(** X12. In binary64 the script never raises, whatever the two slider
    values (any double, NaN and infinities included): it returns 301
    samples, and the time list is the same for all of them. *)
Theorem script_always_returns_binary64 (Li Bi : float) :
  exists s : vars,
    modelo_dbo_app Li Bi = Ok s
    /\ length (trajectory s) = 301%nat
    /\ t_list s = t_list (final (@modelo_dbo_app ArithFloat 0 0)).
Proof.
  destruct (runge_kutta_4_ok (@parametros ArithFloat Li Bi 16200 5184) Fijos.dt 300
              Fijos.C1 Fijos.C2 (parametros_volumes_64 _ _ _ _)) as [s E].
  rewrite <- modelo_dbo_app_64 in E.
  exists s. split; [exact E|]. split; [|exact (t_list_64 _ _ _ E)].
  rewrite modelo_dbo_app_64 in E.
  rewrite (runge_kutta_4_trajectory _ _ _ _ _ _ E).
  change (length (?x :: ?l)) with (S (length l)).
  rewrite orbit_length. reflexivity.
Qed.

(** X13. In binary64, for every slider value, the time after ten steps is
    0.9999999999999999, below t_descarga = 1.0, so the eleventh step's
    first call of [derivadas] still sees the source, exactly as a call at
    t = 0 does. *)
Theorem discharge_outlasts_a_day_binary64 (Li Bi : float) :
  exists s : vars,
    modelo_dbo_app Li Bi = Ok s
    /\ nth 10 (t_list s) 0 = 0x1.fffffffffffffp-1
    /\ forall c1 c2 : float,
        derivadas (parametros Li Bi 16200 5184) c1 c2 (nth 10 (t_list s) 0)
        = derivadas (parametros Li Bi 16200 5184) c1 c2 0.
Proof.
  destruct (runge_kutta_4_ok (@parametros ArithFloat Li Bi 16200 5184) Fijos.dt 300
              Fijos.C1 Fijos.C2 (parametros_volumes_64 _ _ _ _)) as [s E].
  rewrite <- modelo_dbo_app_64 in E.
  exists s. split; [exact E|].
  rewrite (t_list_64 _ _ _ E).
  assert (H10 : nth 10 (t_list (final (@modelo_dbo_app ArithFloat 0 0))) 0
                = 0x1.fffffffffffffp-1) by (vm_compute; reflexivity).
  rewrite H10. split; [reflexivity|]. intros c1 c2. unfold derivadas.
  assert (Ha : @ltb ArithFloat 0x1.fffffffffffffp-1
                 (t_descarga (parametros Li Bi 16200 5184)) = true)
    by (vm_compute; reflexivity).
  assert (Hb : @ltb ArithFloat 0 (t_descarga (parametros Li Bi 16200 5184)) = true)
    by (vm_compute; reflexivity).
  rewrite Ha, Hb. reflexivity.
Qed.

End Binary64Runs.
